(** * TouchGFX sitemap scraper: a shallow embedding of [touchgfx/app.py]

    The scraper fetches a sitemap, keeps the [<url>] entries whose location
    is outside the 4.1/4.2 documentation subtree, probes every kept page for
    a modification date (HTTP headers, then HTML metadata) and writes the
    rows to a CSV file.

    The embedding follows the Python text function by function.  Library
    calls whose code is not part of the repository ([requests],
    [xml.etree.ElementTree], [bs4], the clock and the file system) are the
    fields of an environment record [Env]; everything the program does to
    the outside world is appended to a chronological [Trace]. *)

From Stdlib Require Import Ascii String QArith DecimalString.
From Stdlib Require DecimalZ DecimalPos.
From stdpp Require Import base strings list gmap.

Local Open Scope string_scope.
Local Open Scope list_scope.
Set Warnings "-register-all".

(** ** Python values *)

(** [Optional[str]]: [None] is Python's [None]. *)
Abbreviation pystr := (option string).

(** Truthiness of an [Optional[str]]: [None] and [''] are falsy. *)
Definition truthy (v : pystr) : bool :=
  match v with
  | Some s => negb (String.eqb s "")
  | None => false
  end.

(** [a or b] on [Optional[str]] operands. *)
Definition py_or (a b : pystr) : pystr := if truthy a then a else b.

(** [s[:n]] for a list [s] and an integer bound [n] (a negative bound counts
    from the end of the list). *)
Definition slice_to {A} (s : list A) (n : Z) : list A :=
  if (0 <=? n)%Z then take (Z.to_nat n) s
  else take (length s - Z.to_nat (- n)) s.

(** ** Regular expressions: the fragment of [re] the exclusion pattern uses *)

Module Re.

Inductive atom :=
| Chr (c : ascii)            (* a literal character, possibly escaped *)
| OneOf (cs : list ascii)    (* a character class [[...]] *)
| Dot.                       (* [.]: any character but a newline *)

Inductive item :=
| One (a : atom)
| Star (a : atom).           (* [a*] *)

Definition regex := list item.

Definition newline : ascii := "010"%char.

Definition atom_matches (a : atom) (c : ascii) : bool :=
  match a with
  | Chr x => Ascii.eqb x c
  | OneOf cs => existsb (Ascii.eqb c) cs
  | Dot => negb (Ascii.eqb c newline)
  end.

(** [re.compile]: reads a pattern made of literals, [\c] escapes, [.],
    character classes and postfix [*].  [cls] holds the members of the
    class being read, [acc] the items read so far, most recent first. *)
Fixpoint compile_from (cls : option (list ascii)) (acc : list item)
         (p : string) : option regex :=
  match cls, p with
  | None, EmptyString => Some (rev acc)
  | Some _, EmptyString => None
  | Some cs, String c p' =>
      if Ascii.eqb c "]" then compile_from None (One (OneOf (rev cs)) :: acc) p'
      else compile_from (Some (c :: cs)) acc p'
  | None, String c p' =>
      if Ascii.eqb c "\" then
        match p' with
        | String e p'' => compile_from None (One (Chr e) :: acc) p''
        | EmptyString => None
        end
      else if Ascii.eqb c "[" then compile_from (Some []) acc p'
      else if Ascii.eqb c "." then compile_from None (One Dot :: acc) p'
      else if Ascii.eqb c "*" then
        match acc with
        | One a :: acc' => compile_from None (Star a :: acc') p'
        | _ => None
        end
      else compile_from None (One (Chr c) :: acc) p'
  end.

Definition compile (p : string) : option regex := compile_from None [] p.

(** [pattern.match(s)]: does the pattern match at the start of [s]?  The
    Python call returns a match object or [None]; the program only tests
    that result for truth. *)
Fixpoint matches (re : regex) : string -> bool :=
  match re with
  | [] => fun _ => true
  | One a :: re' => fun s =>
      match s with
      | String c s' => atom_matches a c && matches re' s'
      | EmptyString => false
      end
  | Star a :: re' =>
      fix star (s : string) : bool :=
        matches re' s ||
        match s with
        | String c s' => atom_matches a c && star s'
        | EmptyString => false
        end
  end.

End Re.

(** ** [xml.etree.ElementTree] elements *)

Module ET.

(** An element as the program reads it: the tag in Clark notation
    ([{uri}local]), the text before the first child ([None] when there is
    none) and the child elements in document order. *)
Inductive Element := mkElement {
  tag : string;
  text : pystr;
  children : list Element
}.

(** Splits [prefix:local] at the first colon. *)
Fixpoint split_prefix (path : string) : option (string * string) :=
  match path with
  | EmptyString => None
  | String c rest =>
      if Ascii.eqb c ":" then Some ("", rest)
      else match split_prefix rest with
           | Some (p, l) => Some (String c p, l)
           | None => None
           end
  end.

(** The tag a one-step path selects under a prefix map. *)
Definition resolve (namespaces : list (string * string)) (path : string) : string :=
  match split_prefix path with
  | Some (p, l) =>
      match list_find (fun kv => kv.1 = p) namespaces with
      | Some (_, (_, uri)) => "{" +:+ uri +:+ "}" +:+ l
      | None => path
      end
  | None => path
  end.

(** [element.findall(path, namespaces)]: the children with that tag, in
    document order. *)
Definition findall (e : Element) (path : string)
           (namespaces : list (string * string)) : list Element :=
  filter (fun c => tag c = resolve namespaces path) (children e).

(** [element.find(path, namespaces)]: the first such child, or [None]. *)
Definition find (e : Element) (path : string)
           (namespaces : list (string * string)) : option Element :=
  head (findall e path namespaces).

(** What the parser guarantees about text: an element without character
    data has text [None], never the empty string. *)
Fixpoint texts_nonempty (e : Element) : bool :=
  match e with
  | mkElement _ t cs =>
      negb (bool_decide (t = Some "")) && forallb texts_nonempty cs
  end.

End ET.

(** ** [bs4] documents *)

Module BS.

(** A tag of the parsed document: its name, its attribute dictionary and
    the tags it contains, in document order (text nodes carry no
    attributes and are never selected by the program). *)
Inductive Tag := mkTag {
  name : string;
  attrs : gmap string string;
  contents : list Tag
}.

(** [tag.descendants]: every tag below [t], in document order. *)
Fixpoint descendants (t : Tag) : list Tag :=
  match t with
  | mkTag _ _ cs => flat_map (fun c => c :: descendants c) cs
  end.

(** [tag.get(key)]. *)
Definition get (t : Tag) (key : string) : pystr := attrs t !! key.

(** Does [t] have the wanted name (when one is given) and every wanted
    attribute value? *)
Definition selected (wanted_name : option string)
           (wanted_attrs : list (string * string)) (t : Tag) : bool :=
  match wanted_name with
  | Some n => String.eqb (name t) n
  | None => true
  end &&
  forallb (fun kv => bool_decide (get t kv.1 = Some kv.2)) wanted_attrs.

(** [soup.find(name, attrs=...)]: the first selected descendant. *)
Definition find (soup : Tag) (wanted_name : option string)
           (wanted_attrs : list (string * string)) : option Tag :=
  List.find (selected wanted_name wanted_attrs) (descendants soup).

End BS.

(** ** Exceptions, HTTP messages and the trace of effects *)

Inductive Exception :=
| RequestException (msg : string)  (* requests.RequestException: transport failures *)
| HTTPError (status_code : Z)      (* requests.HTTPError, a RequestException *)
| ParseError (msg : string)        (* xml.etree.ElementTree.ParseError *)
| OSError (msg : string)           (* raised by open() *)
| OtherError (msg : string).       (* any other subclass of Exception *)

Definition is_RequestException (e : Exception) : bool :=
  match e with
  | RequestException _ | HTTPError _ => true
  | _ => false
  end.

Definition is_ParseError (e : Exception) : bool :=
  match e with
  | ParseError _ => true
  | _ => false
  end.

(** [except Exception] catches every constructor above. *)
Definition is_Exception (e : Exception) : bool := true.

Inductive Method := GET | HEAD.

Module Request.

Record t := {
  method : Method;
  url : string;
  timeout : Z;
  allow_redirects : bool;
  headers : list (string * string)   (* session headers, then the call's own *)
}.

End Request.

Definition lower_ascii (c : ascii) : ascii :=
  let n := nat_of_ascii c in
  if (65 <=? n)%nat && (n <=? 90)%nat then ascii_of_nat (n + 32) else c.

Fixpoint lower (s : string) : string :=
  match s with
  | EmptyString => EmptyString
  | String c s' => String (lower_ascii c) (lower s')
  end.

Module Response.

(** A [requests.Response]: the header dictionary is case-insensitive and
    is kept under lower-cased names. *)
Record t := {
  status_code : Z;
  headers : gmap string string;
  text : string
}.

(** [response.headers.get(name)]. *)
Definition headers_get (r : t) (name : string) : pystr :=
  headers r !! lower name.

End Response.

(** The lines the program prints, one constructor per [print] call. *)
Inductive Line :=
| ErrorFetchingSitemap (e : Exception)
| ErrorParsingXML (e : Exception)
| ErrorFetchingHeaders (url : string) (e : Exception)
| ErrorFetchingHTML (url : string) (e : Exception)
| ProcessingURLs (n : nat)
| ProcessingURL (i n : nat) (url : string)
| DataSavedTo (filename : string)
| StartingScraper
| FetchingSitemap
| ParsingSitemap
| FoundURLs (n : nat)
| NoURLsFound
| ScrapingCompleted (filename : string)
| ProcessCompleted (filename : string)
| ElapsedTime (seconds : Q)
| ErrorDuringScraping (e : Exception).

Inductive Event :=
| Sent (r : Request.t)                                   (* an HTTP request left *)
| Printed (l : Line)                                   (* a line on stdout *)
| Slept (seconds : Q)                                  (* time.sleep *)
| Wrote (filename : string) (rows : list (list string)) (* a CSV file written *)
| Truncated (filename : string).                        (* a file opened, then left unfinished *)

(** Effects in the order they happened. *)
Definition Trace := list Event.

(** The libraries and the world the program runs against.  A network
    exchange either answers or raises an exception, of any class; the
    outcome may depend on everything that happened before.  Opening a file
    may fail with an [OSError], and so may the writing that follows a
    successful opening.  Clock readings are rationals. *)
Record Env := {
  send : Trace -> Request.t -> Exception + Response.t;
  fromstring : string -> string + ET.Element;
  BeautifulSoup : string -> Exception + BS.Tag;
  clock : Trace -> Q;
  open_for_writing : Trace -> string -> option string;
  write_error : Trace -> string -> option string
}.

(** ** The monad of the program: a trace and a possible exception *)

Definition M (A : Type) : Type := Trace -> (Exception + A) * Trace.

#[global] Instance M_ret : MRet M := fun A x t => (inr x, t).

#[global] Instance M_bind : MBind M := fun A B f m t =>
  match m t with
  | (inr x, t') => f x t'
  | (inl e, t') => (inl e, t')
  end.

Definition raise {A} (e : Exception) : M A := fun t => (inl e, t).

(** [try: body except <class> as e: handler e]. *)
Definition try_except {A} (body : M A) (catches : Exception -> bool)
           (handler : Exception -> M A) : M A := fun t =>
  match body t with
  | (inl e, t') => if catches e then handler e t' else (inl e, t')
  | (inr x, t') => (inr x, t')
  end.

Definition emit (ev : Event) : M unit := fun t => (inr tt, t ++ [ev]).

Definition print (l : Line) : M unit := emit (Printed l).

Definition sleep (seconds : Q) : M unit := emit (Slept seconds).

(** ** The records the pipeline passes on *)

Module URLRecord.

(** The dictionary [parse_sitemap] builds for a kept entry.  [url] went
    through the [is not None] test; the other three values are whatever
    the conditional expressions yield. *)
Record t := {
  url : string;
  changefreq : pystr;
  priority : pystr;
  lastmod : pystr
}.

End URLRecord.

Module Enriched.

(** The dictionary [scrape_pages] builds for a probed entry. *)
Record t := {
  url : string;
  changefreq : pystr;
  priority : pystr;
  sitemap_lastmod : pystr;
  http_last_modified : pystr;
  http_last_modified2 : pystr
}.

End Enriched.

(** ** Module constants *)

Definition MAX_URLS_TO_FETCH : Z := 10.
Definition FETCH_DELAY : Q := 3 # 4.

(** ** class TouchGFXSitemapScraper *)

Record TouchGFXSitemapScraper := {
  sitemap_url : string;
  url_pattern : Re.regex;
  session_headers : list (string * string)
}.

Definition url_pattern_source : string :=
  "https://support\.touchgfx\.com/4\.[12].*".

Definition compiled_url_pattern : Re.regex :=
  Eval vm_compute in default [] (Re.compile url_pattern_source).

Definition default_sitemap_url : string :=
  "https://support.touchgfx.com/sitemap.xml".

Definition user_agent : string :=
  "Mozilla/5.0 (Windows NT 10.0; Win64; x64) AppleWebKit/537.36 (KHTML, like Gecko) Chrome/91.0.4472.124 Safari/537.36".

(** [__init__]. *)
Definition new_scraper (sitemap_url : string) : TouchGFXSitemapScraper :=
  {| sitemap_url := sitemap_url;
     url_pattern := compiled_url_pattern;
     session_headers := [("User-Agent", user_agent)] |}.

(** The prefix map of [parse_sitemap]. *)
Definition namespace : list (string * string) :=
  [("ns", "http://www.sitemaps.org/schemas/sitemap/0.9")].

(** One turn of the [for url_element in ...] loop of [parse_sitemap]:
    [urls_data] before the turn to [urls_data] after it. *)
Definition parse_url_element (self : TouchGFXSitemapScraper)
           (urls_data : list URLRecord.t) (url_element : ET.Element)
  : list URLRecord.t :=
  let loc_element := ET.find url_element "ns:loc" namespace in
  let changefreq_element := ET.find url_element "ns:changefreq" namespace in
  let priority_element := ET.find url_element "ns:priority" namespace in
  let lastmod_element := ET.find url_element "ns:lastmod" namespace in
  match loc_element with
  | Some loc_element =>
      match ET.text loc_element with
      | Some url =>
          if negb (Re.matches (url_pattern self) url) then
            let url_data :=
              {| URLRecord.url := url;
                 URLRecord.changefreq :=
                   match changefreq_element with
                   | Some el => ET.text el
                   | None => Some ""
                   end;
                 URLRecord.priority :=
                   match priority_element with
                   | Some el => ET.text el
                   | None => Some ""
                   end;
                 URLRecord.lastmod :=
                   match lastmod_element with
                   | Some el => ET.text el
                   | None => Some ""
                   end |} in
            urls_data ++ [url_data]
          else urls_data
      | None => urls_data
      end
  | None => urls_data
  end.

(** The whole loop over a parsed document. *)
Definition parse_root (self : TouchGFXSitemapScraper) (root : ET.Element)
  : list URLRecord.t :=
  foldl (parse_url_element self) [] (ET.findall root "ns:url" namespace).

(** [int(x)] truncates towards zero; [str] of an integer is decimal. *)
Definition int_of_Q (x : Q) : Z := Z.quot (Qnum x) (Z.pos (Qden x)).
Definition str_of_Z (n : Z) : string := NilZero.string_of_int (Z.to_int n).

Definition fieldnames : list string :=
  ["url"; "changefreq"; "priority"; "sitemap_lastmod";
   "http_last_modified"; "http_last_modified2"].

(** A CSV cell: [csv] writes [None] as the empty field. *)
Definition cell (v : pystr) : string := default "" v.

(** The row [csv.DictWriter] writes for a record, in [fieldnames] order. *)
Definition csv_row (r : Enriched.t) : list string :=
  [Enriched.url r; cell (Enriched.changefreq r); cell (Enriched.priority r);
   cell (Enriched.sitemap_lastmod r); cell (Enriched.http_last_modified r);
   cell (Enriched.http_last_modified2 r)].

Section Scraper.

Context (env : Env).

(** [time.time()]. *)
Definition time_time : M Q := fun t => (inr (clock env t), t).

(** [self.session.get] and [self.session.head]: the request is recorded,
    then answered, or an exception is raised. *)
Definition session_request (r : Request.t) : M Response.t := fun t =>
  match send env t r with
  | inr response => (inr response, t ++ [Sent r])
  | inl e => (inl e, t ++ [Sent r])
  end.

Definition session_get (self : TouchGFXSitemapScraper) (url : string)
           (timeout : Z) : M Response.t :=
  session_request
    {| Request.method := GET; Request.url := url; Request.timeout := timeout;
       Request.allow_redirects := true;
       Request.headers := session_headers self |}.

Definition session_head (self : TouchGFXSitemapScraper) (url : string)
           (timeout : Z) (allow_redirects : bool)
           (headers : list (string * string)) : M Response.t :=
  session_request
    {| Request.method := HEAD; Request.url := url; Request.timeout := timeout;
       Request.allow_redirects := allow_redirects;
       Request.headers := session_headers self ++ headers |}.

(** [response.raise_for_status()]. *)
Definition raise_for_status (response : Response.t) : M unit :=
  let code := Response.status_code response in
  if (400 <=? code)%Z && (code <? 600)%Z then raise (HTTPError code)
  else mret tt.

Definition fetch_sitemap (self : TouchGFXSitemapScraper) : M string :=
  try_except
    (response ← session_get self (sitemap_url self) 30;
     _ ← raise_for_status response;
     mret (Response.text response))
    is_RequestException
    (fun e => _ ← print (ErrorFetchingSitemap e); raise e).

Definition ET_fromstring (xml_content : string) : M ET.Element :=
  match fromstring env xml_content with
  | inr root => mret root
  | inl msg => raise (ParseError msg)
  end.

Definition parse_sitemap (self : TouchGFXSitemapScraper)
           (xml_content : string) : M (list URLRecord.t) :=
  try_except
    (root ← ET_fromstring xml_content;
     mret (parse_root self root))
    is_ParseError
    (fun e => _ ← print (ErrorParsingXML e); raise e).

Definition get_last_modified_from_page (self : TouchGFXSitemapScraper)
           (url : string) : M pystr :=
  try_except
    (let headers := [("X-Purpose", "last-mod-check")] in
     response ← session_head self url 10 true headers;
     let last_modified := Response.headers_get response "Last-Modified" in
     if truthy last_modified then mret last_modified
     else
       let date_header := Response.headers_get response "Date" in
       if truthy date_header then mret date_header
       else mret None)
    is_RequestException
    (fun e => _ ← print (ErrorFetchingHeaders url e); mret None).

Definition make_soup (markup : string) : M BS.Tag :=
  match BeautifulSoup env markup with
  | inr soup => mret soup
  | inl e => raise e
  end.

(** A tag object is always true, so [meta and meta.get('content')] is
    true when a tag was found and its [content] is a non-empty string. *)
Definition has_content (found : option BS.Tag) : bool :=
  match found with
  | Some tag => truthy (BS.get tag "content")
  | None => false
  end.

(** [tag['content']], read only after [has_content]. *)
Definition content_of (found : option BS.Tag) : pystr :=
  found ≫= fun tag => BS.get tag "content".

Definition get_last_modified_from_html (self : TouchGFXSitemapScraper)
           (url : string) : M pystr :=
  try_except
    (response ← session_get self url 10;
     soup ← make_soup (Response.text response);
     let meta := BS.find soup (Some "meta") [("name", "last-modified")] in
     if has_content meta then mret (content_of meta)
     else
       let schema := BS.find soup None [("itemprop", "dateModified")] in
       if has_content schema then mret (content_of schema)
       else mret None)
    is_Exception
    (fun e => _ ← print (ErrorFetchingHTML url e); mret None).

(** The [for i, url_data in enumerate(urls_data, 1)] loop of
    [scrape_pages]; [n] is [len(urls_data)] of the capped list. *)
Fixpoint scrape_loop (self : TouchGFXSitemapScraper) (n i : nat)
         (urls_data : list URLRecord.t) (results : list Enriched.t)
  : M (list Enriched.t) :=
  match urls_data with
  | [] => mret results
  | url_data :: rest =>
      _ ← print (ProcessingURL i n (URLRecord.url url_data));
      http_last_modified ←
        get_last_modified_from_page self (URLRecord.url url_data);
      http_last_modified2 ←
        get_last_modified_from_html self (URLRecord.url url_data);
      let result :=
        {| Enriched.url := URLRecord.url url_data;
           Enriched.changefreq := URLRecord.changefreq url_data;
           Enriched.priority := URLRecord.priority url_data;
           Enriched.sitemap_lastmod := URLRecord.lastmod url_data;
           Enriched.http_last_modified := py_or http_last_modified (Some "");
           Enriched.http_last_modified2 := py_or http_last_modified2 (Some "") |} in
      let results := results ++ [result] in
      _ ← sleep FETCH_DELAY;
      scrape_loop self n (S i) rest results
  end.

Definition scrape_pages (self : TouchGFXSitemapScraper)
           (urls_data : list URLRecord.t) : M (list Enriched.t) :=
  let urls_data := slice_to urls_data MAX_URLS_TO_FETCH in
  let results := [] in
  _ ← print (ProcessingURLs (length urls_data));
  scrape_loop self (length urls_data) 1 urls_data results.

(** The [with open(filename, 'w') ...] block: the file is opened (created
    or emptied), then the header row and [writerows(data)] are written and
    the file is closed.  A failure of the opening leaves no file; a failure
    after it leaves the file behind, unfinished. *)
Definition write_csv (filename : string) (data : list Enriched.t) : M unit :=
  fun t =>
    match open_for_writing env t filename with
    | Some msg => (inl (OSError msg), t)
    | None =>
        match write_error env t filename with
        | Some msg => (inl (OSError msg), t ++ [Truncated filename])
        | None => (inr tt, t ++ [Wrote filename (fieldnames :: map csv_row data)])
        end
    end.

Definition save_to_csv (self : TouchGFXSitemapScraper)
           (data : list Enriched.t) (filename : option string) : M string :=
  filename ←
    match filename with
    | None =>
        now ← time_time;
        let epoch_timestamp := int_of_Q now in
        mret ("/tmp/touchgfx-" +:+ str_of_Z epoch_timestamp +:+ ".csv")
    | Some filename => mret filename
    end;
  _ ← write_csv filename data;
  _ ← print (DataSavedTo filename);
  mret filename.

Definition run (self : TouchGFXSitemapScraper) : M string :=
  _ ← print StartingScraper;
  _ ← print FetchingSitemap;
  xml_content ← fetch_sitemap self;
  _ ← print ParsingSitemap;
  urls_data ← parse_sitemap self xml_content;
  _ ← print (FoundURLs (length urls_data));
  match urls_data with
  | [] =>
      _ ← print NoURLsFound;
      mret ""
  | _ =>
      results ← scrape_pages self urls_data;
      filename ← save_to_csv self results None;
      _ ← print (ScrapingCompleted filename);
      mret filename
  end.

Definition main : M unit :=
  let scraper := new_scraper default_sitemap_url in
  start_time ← time_time;
  try_except
    (filename ← run scraper;
     now ← time_time;
     let elapsed := (now - start_time)%Q in
     _ ← print (ProcessCompleted filename);
     print (ElapsedTime elapsed))
    is_Exception
    (fun e =>
       now ← time_time;
       let elapsed := (now - start_time)%Q in
       _ ← print (ErrorDuringScraping e);
       print (ElapsedTime elapsed)).

End Scraper.

(** ** Reading the trace *)

(** The URLs a trace probed with HEAD, in order. *)
Definition head_requests (tr : Trace) : list string :=
  omap (fun ev =>
          match ev with
          | Sent r => match Request.method r with
                      | HEAD => Some (Request.url r)
                      | GET => None
                      end
          | _ => None
          end) tr.

(** The URLs a trace fetched with GET, in order. *)
Definition get_requests (tr : Trace) : list string :=
  omap (fun ev =>
          match ev with
          | Sent r => match Request.method r with
                      | GET => Some (Request.url r)
                      | HEAD => None
                      end
          | _ => None
          end) tr.

(** The files a trace created or overwrote, finished or not, in order. *)
Definition files_written (tr : Trace) : list string :=
  omap (fun ev =>
          match ev with
          | Wrote filename _ => Some filename
          | Truncated filename => Some filename
          | _ => None
          end) tr.

(** ** The predicates of the statements *)

(** The [<url>] entries of a sitemap document, in document order. *)
Definition url_elements (root : ET.Element) : list ET.Element :=
  ET.findall root "ns:url" namespace.

(** The text of the [<loc>] of an entry, [None] when the entry has no
    [<loc>] or the [<loc>] has no text. *)
Definition loc_text (url_element : ET.Element) : pystr :=
  ET.find url_element "ns:loc" namespace ≫= ET.text.

(** An entry is kept when its location is present and is not matched by the
    exclusion pattern. *)
Definition kept (self : TouchGFXSitemapScraper) (url_element : ET.Element) : bool :=
  match loc_text url_element with
  | Some url => negb (Re.matches (url_pattern self) url)
  | None => false
  end.

(** An enriched record that copies [u] and adds two probe results. *)
Definition derived_from (u : URLRecord.t) (e : Enriched.t) : Prop :=
  exists http_last_modified http_last_modified2 : pystr,
    e = {| Enriched.url := URLRecord.url u;
           Enriched.changefreq := URLRecord.changefreq u;
           Enriched.priority := URLRecord.priority u;
           Enriched.sitemap_lastmod := URLRecord.lastmod u;
           Enriched.http_last_modified := py_or http_last_modified (Some "");
           Enriched.http_last_modified2 := py_or http_last_modified2 (Some "") |}.

(** The pattern that matches exactly the characters of [s]. *)
Definition literal (s : string) : Re.regex :=
  map (fun c => Re.One (Re.Chr c)) (list_ascii_of_string s).

(** What the HTML probe reads off a parsed page. *)
Definition html_last_modified (soup : BS.Tag) : pystr :=
  let meta := BS.find soup (Some "meta") [("name", "last-modified")] in
  if has_content meta then content_of meta
  else
    let schema := BS.find soup None [("itemprop", "dateModified")] in
    if has_content schema then content_of schema else None.

(** The name [save_to_csv] makes up when none is given. *)
Definition default_filename (now : Q) : string :=
  "/tmp/touchgfx-" +:+ str_of_Z (int_of_Q now) +:+ ".csv".

(** The requests of the program. *)
Definition sitemap_request (self : TouchGFXSitemapScraper) : Request.t :=
  {| Request.method := GET; Request.url := sitemap_url self;
     Request.timeout := 30; Request.allow_redirects := true;
     Request.headers := session_headers self |}.

Definition head_request (self : TouchGFXSitemapScraper) (url : string) : Request.t :=
  {| Request.method := HEAD; Request.url := url;
     Request.timeout := 10; Request.allow_redirects := true;
     Request.headers := session_headers self ++ [("X-Purpose", "last-mod-check")] |}.

Definition page_request (self : TouchGFXSitemapScraper) (url : string) : Request.t :=
  {| Request.method := GET; Request.url := url;
     Request.timeout := 10; Request.allow_redirects := true;
     Request.headers := session_headers self |}.

(** ** Sample documents and environments *)

Module Sample.

Definition ns (local : string) : string :=
  "{http://www.sitemaps.org/schemas/sitemap/0.9}" +:+ local.

Definition leaf (local : string) (text : pystr) : ET.Element :=
  ET.mkElement (ns local) text [].

Definition entry (fields : list ET.Element) : ET.Element :=
  ET.mkElement (ns "url") None fields.

Definition urlset (entries : list ET.Element) : ET.Element :=
  ET.mkElement (ns "urlset") None entries.

(** Three entries, the second inside the excluded subtree. *)
Definition three_xml : string :=
  "<urlset xmlns='http://www.sitemaps.org/schemas/sitemap/0.9'><url><loc>https://support.touchgfx.com/docs/introduction/welcome</loc><lastmod>2024-05-01</lastmod></url><url><loc>https://support.touchgfx.com/4.2/docs/introduction/welcome</loc></url><url><loc>https://support.touchgfx.com/docs/basic-concepts/rendering</loc><changefreq>weekly</changefreq><priority>0.5</priority></url></urlset>".

Definition three_root : ET.Element :=
  urlset
    [entry [leaf "loc" (Some "https://support.touchgfx.com/docs/introduction/welcome");
            leaf "lastmod" (Some "2024-05-01")];
     entry [leaf "loc" (Some "https://support.touchgfx.com/4.2/docs/introduction/welcome")];
     entry [leaf "loc" (Some "https://support.touchgfx.com/docs/basic-concepts/rendering");
            leaf "changefreq" (Some "weekly");
            leaf "priority" (Some "0.5")]].

(** One entry whose [<changefreq/>] is empty. *)
Definition empty_changefreq_xml : string :=
  "<urlset xmlns='http://www.sitemaps.org/schemas/sitemap/0.9'><url><loc>https://support.touchgfx.com/docs/introduction/welcome</loc><changefreq/></url></urlset>".

Definition empty_changefreq_root : ET.Element :=
  urlset
    [entry [leaf "loc" (Some "https://support.touchgfx.com/docs/introduction/welcome");
            leaf "changefreq" None]].

(** Every entry is inside the excluded subtree. *)
Definition excluded_xml : string :=
  "<urlset xmlns='http://www.sitemaps.org/schemas/sitemap/0.9'><url><loc>https://support.touchgfx.com/4.1/docs/introduction/welcome</loc></url></urlset>".

Definition excluded_root : ET.Element :=
  urlset
    [entry [leaf "loc" (Some "https://support.touchgfx.com/4.1/docs/introduction/welcome")]].

(** The parser on the documents above; any other text is malformed. *)
Definition documents (xml_content : string) : string + ET.Element :=
  if String.eqb xml_content three_xml then inr three_root
  else if String.eqb xml_content empty_changefreq_xml then inr empty_changefreq_root
  else if String.eqb xml_content excluded_xml then inr excluded_root
  else inl "syntax error: line 1, column 0".

Definition response (status_code : Z) (headers : list (string * string))
           (text : string) : Response.t :=
  {| Response.status_code := status_code;
     Response.headers := list_to_map headers;
     Response.text := text |}.

(** An empty HTML document. *)
Definition blank : BS.Tag := BS.mkTag "[document]" ∅ [].

(** A world given by what the network answers and what the HTML parser
    builds; the clock ticks once per recorded effect and every file can
    be opened. *)
Definition world (answer : Request.t -> Exception + Response.t)
           (soup : string -> Exception + BS.Tag) : Env :=
  {| send := fun _ r => answer r;
     fromstring := documents;
     BeautifulSoup := soup;
     clock := fun tr => (Z.of_nat (length tr) # 1)%Q;
     open_for_writing := fun _ _ => None;
     write_error := fun _ _ => None |}.

(** No network at all. *)
Definition offline : Env :=
  world (fun _ => inl (RequestException "connection refused"))
        (fun _ => inr blank).

Definition scraper : TouchGFXSitemapScraper := new_scraper default_sitemap_url.

(** Eleven records outside the excluded subtree. *)
Definition page (k : string) : URLRecord.t :=
  {| URLRecord.url := "https://support.touchgfx.com/docs/page-" +:+ k;
     URLRecord.changefreq := Some "weekly";
     URLRecord.priority := Some "0.5";
     URLRecord.lastmod := Some ("2024-05-" +:+ k) |}.

Definition eleven : list URLRecord.t :=
  map page ["01"; "02"; "03"; "04"; "05"; "06"; "07"; "08"; "09"; "10"; "11"].

Definition welcome : string :=
  "https://support.touchgfx.com/docs/introduction/welcome".

Definition date_value : string := "Tue, 01 Jan 2030 00:00:00 GMT".

(** A HEAD answer with a [Date] header only. *)
Definition date_only : Response.t :=
  response 200 [("date", date_value)] "".

(** A HEAD answer whose [Last-Modified] header is present with an empty
    value, next to a [Date] header. *)
Definition empty_last_modified : Response.t :=
  response 200 [("last-modified", ""); ("date", date_value)] "".

(** A world in which every request gets the answer [r]. *)
Definition answering (r : Response.t) : Env :=
  world (fun _ => inr r) (fun _ => inr blank).

(** A page with the [<meta name="last-modified">] tag of the
    specification. *)
Definition meta_html : string :=
  "<html><head><meta name='last-modified' content='2024-05-01'></head><body></body></html>".

Definition meta_soup : BS.Tag :=
  BS.mkTag "[document]" ∅
    [BS.mkTag "html" ∅
       [BS.mkTag "head" ∅
          [BS.mkTag "meta"
             {[ "name" := "last-modified"; "content" := "2024-05-01" ]} []];
        BS.mkTag "body" ∅ []]].

(** A page whose [<meta name="last-modified">] tag has no [content],
    followed by a schema.org [dateModified] item. *)
Definition bare_meta_html : string :=
  "<html><head><meta name='last-modified'></head><body><span itemprop='dateModified' content='2023-11-30'></span></body></html>".

Definition bare_meta : BS.Tag :=
  BS.mkTag "meta" {[ "name" := "last-modified" ]} [].

Definition bare_meta_soup : BS.Tag :=
  BS.mkTag "[document]" ∅
    [BS.mkTag "html" ∅
       [BS.mkTag "head" ∅ [bare_meta];
        BS.mkTag "body" ∅
          [BS.mkTag "span"
             {[ "itemprop" := "dateModified"; "content" := "2023-11-30" ]} []]]].

(** The HTML parser on the pages above. *)
Definition pages (markup : string) : Exception + BS.Tag :=
  if String.eqb markup meta_html then inr meta_soup
  else if String.eqb markup bare_meta_html then inr bare_meta_soup
  else inr blank.

(** A world in which every request is answered with the page [html]. *)
Definition serving (html : string) : Env :=
  world (fun _ => inr (response 200 [] html)) pages.

(** An enriched record whose [changefreq] is [None]. *)
Definition enriched_welcome : Enriched.t :=
  {| Enriched.url := welcome;
     Enriched.changefreq := None;
     Enriched.priority := Some "0.5";
     Enriched.sitemap_lastmod := Some "2024-05-01";
     Enriched.http_last_modified := Some date_value;
     Enriched.http_last_modified2 := Some "" |}.

(** A text the XML parser rejects. *)
Definition malformed_xml : string := "<urlset><url>".

(** An error page that still carries a [Date] header. *)
Definition not_found : Response.t :=
  response 404 [("date", date_value)] "Not Found".

(** The world of [serving] on a file system that refuses every file. *)
Definition read_only (html : string) : Env :=
  {| send := fun _ _ => inr (response 200 [] html);
     fromstring := documents;
     BeautifulSoup := pages;
     clock := fun tr => (Z.of_nat (length tr) # 1)%Q;
     open_for_writing := fun _ _ => Some "Permission denied";
     write_error := fun _ _ => None |}.

(** The world of [serving] on a disk that fills up: every file opens, no
    writing completes. *)
Definition disk_full (html : string) : Env :=
  {| send := fun _ _ => inr (response 200 [] html);
     fromstring := documents;
     BeautifulSoup := pages;
     clock := fun tr => (Z.of_nat (length tr) # 1)%Q;
     open_for_writing := fun _ _ => None;
     write_error := fun _ _ => Some "No space left on device" |}.

(** A world in which every GET is answered with the page [html] and every
    HEAD raises an exception that is not a [RequestException] (what the
    HTTP library does for a host name it cannot parse). *)
Definition unparsable_host (html : string) : Env :=
  world (fun r =>
           match Request.method r with
           | HEAD => inl (OtherError "LocationParseError: Failed to parse")
           | GET => inr (response 200 [] html)
           end) pages.

(** The same address listed twice. *)
Definition twice : list URLRecord.t := [page "01"; page "01"].

End Sample.

(** ** More readings of the trace and of an entry *)

(** The value [parse_sitemap] stores for an optional child of an entry: the
    text of the first child with that tag, the empty string when there is
    no such child. *)
Definition optional_text (url_element : ET.Element) (path : string) : pystr :=
  match ET.find url_element path namespace with
  | Some el => ET.text el
  | None => Some ""
  end.

(** Every request of a trace, in order. *)
Definition requests_sent (tr : Trace) : list Request.t :=
  omap (fun ev => match ev with Sent r => Some r | _ => None end) tr.

(** The pauses of a trace, in order. *)
Definition sleeps (tr : Trace) : list Q :=
  omap (fun ev => match ev with Slept d => Some d | _ => None end) tr.

(** The progress lines of [scrape_pages] in a trace, in order. *)
Definition progress_lines (tr : Trace) : list Line :=
  omap (fun ev =>
          match ev with
          | Printed (ProcessingURLs n) => Some (ProcessingURLs n)
          | Printed (ProcessingURL i n url) => Some (ProcessingURL i n url)
          | _ => None
          end) tr.

(** The two requests [scrape_pages] makes for a record. *)
Definition probe_requests (self : TouchGFXSitemapScraper) (u : URLRecord.t)
  : list Request.t :=
  [head_request self (URLRecord.url u); page_request self (URLRecord.url u)].

(** The exceptions a HEAD probe does not catch: raised by the HEAD request
    for one of the records [urls_data], and not a [RequestException]. *)
Definition uncaught_head_error (env : Env) (self : TouchGFXSitemapScraper)
           (urls_data : list URLRecord.t) (e : Exception) : Prop :=
  is_RequestException e = false /\
  exists (tr : Trace) (u : URLRecord.t),
    u ∈ urls_data /\
    send env tr (head_request self (URLRecord.url u)) = inl e.

(** Every exception the HEAD requests of the scraper raise in this world is
    a [RequestException]. *)
Definition head_failures_caught (env : Env) (self : TouchGFXSitemapScraper)
  : Prop :=
  forall (tr : Trace) (url : string) (e : Exception),
    send env tr (head_request self url) = inl e ->
    is_RequestException e = true.

(** The record [e] was made from [u] by the two probes of a run that went
    from trace [t] to trace [t']: at some moment of the run the header
    probe ran for the URL of [u], the HTML probe ran right after it, and
    [e] copies [u] and holds the two results, each or-ed with the empty
    string. *)
Definition probed_in (env : Env) (self : TouchGFXSitemapScraper)
           (t t' : Trace) (u : URLRecord.t) (e : Enriched.t) : Prop :=
  exists (before middle after : Trace)
         (http_last_modified http_last_modified2 : pystr),
    t `prefix_of` before /\
    get_last_modified_from_page env self (URLRecord.url u) before =
      (inr http_last_modified, middle) /\
    get_last_modified_from_html env self (URLRecord.url u) middle =
      (inr http_last_modified2, after) /\
    after `prefix_of` t' /\
    e = {| Enriched.url := URLRecord.url u;
           Enriched.changefreq := URLRecord.changefreq u;
           Enriched.priority := URLRecord.priority u;
           Enriched.sitemap_lastmod := URLRecord.lastmod u;
           Enriched.http_last_modified := py_or http_last_modified (Some "");
           Enriched.http_last_modified2 := py_or http_last_modified2 (Some "") |}.

(** ** Running the monad *)

Lemma bind_run {A B} (m : M A) (k : A -> M B) (t : Trace) :
  (m ≫= k) t =
  match m t with
  | (inr x, t') => k x t'
  | (inl e, t') => (inl e, t')
  end.
Proof. reflexivity. Qed.

Lemma print_run (l : Line) (t : Trace) : print l t = (inr tt, t ++ [Printed l]).
Proof. reflexivity. Qed.

Lemma sleep_run (d : Q) (t : Trace) : sleep d t = (inr tt, t ++ [Slept d]).
Proof. reflexivity. Qed.

Lemma head_requests_app (a b : Trace) :
  head_requests (a ++ b) = head_requests a ++ head_requests b.
Proof. apply omap_app. Qed.

Lemma get_requests_app (a b : Trace) :
  get_requests (a ++ b) = get_requests a ++ get_requests b.
Proof. apply omap_app. Qed.

Lemma files_written_app (a b : Trace) :
  files_written (a ++ b) = files_written a ++ files_written b.
Proof. apply omap_app. Qed.

(** ** The exclusion pattern *)

Lemma url_pattern_compiles :
  Re.compile url_pattern_source = Some compiled_url_pattern.
Proof. reflexivity. Qed.

Lemma matches_literal (s : string) (re : Re.regex) (u : string) :
  Re.matches (literal s ++ re) u = true <->
  exists rest, u = s +:+ rest /\ Re.matches re rest = true.
Proof.
  revert u. induction s as [|c s IH]; intros u.
  - simpl. split; [intros H; by exists u|by intros (rest & -> & H)].
  - change (literal (String c s) ++ re)
      with (Re.One (Re.Chr c) :: (literal s ++ re)).
    destruct u as [|d u]; simpl.
    + split; [done|by intros (rest & [=] & _)].
    + rewrite andb_true_iff, IH. split.
      * intros [Hc (rest & -> & H)]. apply Ascii.eqb_eq in Hc as ->.
        by exists rest.
      * intros (rest & [= -> ->] & H). split; [apply Ascii.eqb_refl|].
        by exists rest.
Qed.

Lemma matches_dot_star (u : string) : Re.matches [Re.Star Re.Dot] u = true.
Proof. by destruct u. Qed.

(** X1. The exclusion pattern matches the URLs that start with the address
    of the 4.1 or of the 4.2 documentation subtree, and no others: the match
    is anchored at the start only, is case-sensitive, and whatever follows
    the [4.1] or [4.2] (a further digit, a newline, nothing) is accepted. *)
Lemma url_pattern_matches_iff (u : string) :
  Re.matches compiled_url_pattern u = true <->
  exists rest,
    u = "https://support.touchgfx.com/4.1" +:+ rest \/
    u = "https://support.touchgfx.com/4.2" +:+ rest.
Proof.
  change compiled_url_pattern
    with (literal "https://support.touchgfx.com/4." ++
          [Re.One (Re.OneOf ["1"; "2"]%char); Re.Star Re.Dot]).
  rewrite matches_literal. split.
  - intros (rest & -> & H). destruct rest as [|d rest]; [done|].
    cbn [Re.matches] in H. apply andb_prop in H as [Hd _].
    simpl in Hd. rewrite orb_false_r in Hd.
    exists rest. apply orb_prop in Hd as [Hd|Hd];
      apply Ascii.eqb_eq in Hd as ->; [by left|by right].
  - intros (rest & [-> | ->]).
    + exists (String "1" rest). split; [done|].
      cbn [Re.matches]. by rewrite matches_dot_star.
    + exists (String "2" rest). split; [done|].
      cbn [Re.matches]. by rewrite matches_dot_star.
Qed.

(** ** [parse_sitemap] *)

Lemma parse_url_element_appends self urls_data url_element :
  parse_url_element self urls_data url_element =
  urls_data ++ parse_url_element self [] url_element.
Proof.
  unfold parse_url_element.
  destruct (ET.find url_element "ns:loc" namespace) as [loc|];
    [|by rewrite app_nil_r].
  destruct (ET.text loc) as [u|]; [|by rewrite app_nil_r].
  destruct (negb _); [done|by rewrite app_nil_r].
Qed.

Lemma parse_url_element_kept self url_element :
  kept self url_element = true ->
  exists r, parse_url_element self [] url_element = [r] /\
            loc_text url_element = Some (URLRecord.url r).
Proof.
  unfold kept, loc_text, parse_url_element.
  destruct (ET.find url_element "ns:loc" namespace) as [loc|]; simpl; [|done].
  destruct (ET.text loc) as [u|]; [|done].
  intros ->. eexists. split; [reflexivity|done].
Qed.

Lemma parse_url_element_skipped self url_element :
  kept self url_element = false ->
  parse_url_element self [] url_element = [].
Proof.
  unfold kept, loc_text, parse_url_element.
  destruct (ET.find url_element "ns:loc" namespace) as [loc|]; simpl; [|done].
  destruct (ET.text loc) as [u|]; [|done].
  by intros ->.
Qed.

(** The optional values of a record: the empty string when the element is
    absent, the text of the element (possibly [None]) when it is there. *)
Lemma parse_url_element_optional self url_element r :
  parse_url_element self [] url_element = [r] ->
  let value path :=
    match ET.find url_element path namespace with
    | Some el => ET.text el
    | None => Some ""
    end in
  URLRecord.changefreq r = value "ns:changefreq" /\
  URLRecord.priority r = value "ns:priority" /\
  URLRecord.lastmod r = value "ns:lastmod".
Proof.
  unfold parse_url_element.
  destruct (ET.find url_element "ns:loc" namespace) as [loc|]; [|done].
  destruct (ET.text loc) as [u|]; [|done].
  destruct (negb _); [|done].
  by intros [= <-].
Qed.

Lemma parse_loop_kept self (entries : list ET.Element) (urls_data : list URLRecord.t) :
  exists added,
    foldl (parse_url_element self) urls_data entries = urls_data ++ added /\
    Forall2 (fun url_element r => loc_text url_element = Some (URLRecord.url r))
            (filter (fun e => kept self e = true) entries) added.
Proof.
  revert urls_data. induction entries as [|e entries IH]; intros urls_data.
  - exists []. split; [by rewrite app_nil_r|constructor].
  - simpl. rewrite parse_url_element_appends.
    destruct (IH (urls_data ++ parse_url_element self [] e)) as (added & -> & Hadded).
    destruct (kept self e) eqn:Hk.
    + destruct (parse_url_element_kept self e Hk) as (r & -> & Hr).
      exists (r :: added). split; [by rewrite <- app_assoc|].
      rewrite filter_cons_True by done. by constructor.
    + rewrite (parse_url_element_skipped self e Hk), app_nil_r.
      exists added. split; [done|].
      rewrite filter_cons_False; [done|]. by rewrite Hk.
Qed.

Lemma parse_root_kept self root :
  Forall2 (fun url_element r => loc_text url_element = Some (URLRecord.url r))
          (filter (fun e => kept self e = true) (url_elements root))
          (parse_root self root).
Proof.
  unfold parse_root.
  destruct (parse_loop_kept self (ET.findall root "ns:url" namespace) [])
    as (added & -> & H).
  exact H.
Qed.

Lemma parse_sitemap_parsed env self xml_content root t :
  fromstring env xml_content = inr root ->
  parse_sitemap env self xml_content t = (inr (parse_root self root), t).
Proof.
  intros H. unfold parse_sitemap, try_except, ET_fromstring.
  rewrite bind_run, H. reflexivity.
Qed.

Lemma parse_sitemap_malformed env self xml_content msg t :
  fromstring env xml_content = inl msg ->
  parse_sitemap env self xml_content t =
  (inl (ParseError msg), t ++ [Printed (ErrorParsingXML (ParseError msg))]).
Proof.
  intros H. unfold parse_sitemap, try_except, ET_fromstring.
  rewrite bind_run, H. reflexivity.
Qed.

Lemma texts_nonempty_text (e : ET.Element) :
  ET.texts_nonempty e = true -> ET.text e <> Some "".
Proof.
  destruct e as [tg tx cs]. simpl. intros H.
  apply andb_prop in H as [H _].
  apply negb_true_iff, bool_decide_eq_false in H. exact H.
Qed.

Lemma texts_nonempty_child (e c : ET.Element) :
  ET.texts_nonempty e = true -> c ∈ ET.children e -> ET.texts_nonempty c = true.
Proof.
  destruct e as [tg tx cs]. simpl. intros H Hc.
  apply andb_prop in H as [_ H].
  rewrite forallb_forall in H. apply H. by apply list_elem_of_In.
Qed.

Lemma find_child (e c : ET.Element) path namespaces :
  ET.find e path namespaces = Some c -> c ∈ ET.children e.
Proof.
  unfold ET.find, ET.findall. intros H.
  apply head_Some_elem_of, list_elem_of_filter in H. tauto.
Qed.

Lemma loc_text_nonempty (root url_element : ET.Element) (url : string) :
  ET.texts_nonempty root = true ->
  url_element ∈ url_elements root ->
  loc_text url_element = Some url -> url <> "".
Proof.
  intros Hroot He Hloc. unfold loc_text in Hloc.
  destruct (ET.find url_element "ns:loc" namespace) as [loc|] eqn:Hfind; [|done].
  simpl in Hloc.
  apply list_elem_of_filter in He as [_ He].
  pose proof (texts_nonempty_child _ _ Hroot He) as Hurl.
  pose proof (texts_nonempty_child _ _ Hurl (find_child _ _ _ _ Hfind)) as Hl.
  apply texts_nonempty_text in Hl. congruence.
Qed.

(** C1. For a sitemap document that parses, [parse_sitemap] returns, in
    document order, exactly one record per [<url>] entry whose [<loc>]
    text is present and is not matched by the exclusion pattern: the
    records pair off one to one with those entries, each carrying the
    location of its entry; every other entry contributes nothing.  Nothing
    is printed or sent.  On the trees the XML parser builds (no element
    has the empty string as text) a present location is a non-empty
    one. *)
Theorem parse_sitemap_one_record_per_kept_entry
        (env : Env) (self : TouchGFXSitemapScraper) (xml_content : string)
        (root : ET.Element) (t : Trace) :
  fromstring env xml_content = inr root ->
  exists urls_data : list URLRecord.t,
    parse_sitemap env self xml_content t = (inr urls_data, t) /\
    Forall2 (fun url_element r => loc_text url_element = Some (URLRecord.url r))
            (filter (fun e => kept self e = true) (url_elements root))
            urls_data /\
    length urls_data =
      length (filter (fun e => kept self e = true) (url_elements root)) /\
    (ET.texts_nonempty root = true ->
     Forall (fun r => URLRecord.url r <> "") urls_data).
Proof.
  intros Hparse. exists (parse_root self root).
  pose proof (parse_root_kept self root) as Hkept.
  split; [by apply parse_sitemap_parsed|].
  split; [exact Hkept|].
  split; [symmetry; by eapply Forall2_length|].
  intros Hroot.
  apply Forall_forall. intros r Hr.
  apply list_elem_of_lookup in Hr as [i Hi].
  destruct (Forall2_lookup_r _ _ _ _ _ Hkept Hi) as (e & He & Hloc).
  apply (loc_text_nonempty root e); [done| |done].
  apply list_elem_of_lookup_2 in He.
  apply list_elem_of_filter in He. tauto.
Qed.

Lemma parse_sitemap_one_record_per_kept_entry_witness :
  fromstring Sample.offline Sample.three_xml = inr Sample.three_root /\
  exists urls_data : list URLRecord.t,
    parse_sitemap Sample.offline Sample.scraper Sample.three_xml [] =
      (inr urls_data, []) /\
    Forall2 (fun url_element r => loc_text url_element = Some (URLRecord.url r))
            (filter (fun e => kept Sample.scraper e = true)
                    (url_elements Sample.three_root))
            urls_data /\
    length urls_data =
      length (filter (fun e => kept Sample.scraper e = true)
                     (url_elements Sample.three_root)) /\
    (ET.texts_nonempty Sample.three_root = true ->
     Forall (fun r => URLRecord.url r <> "") urls_data).
Proof.
  split; [reflexivity|].
  apply (parse_sitemap_one_record_per_kept_entry
           Sample.offline Sample.scraper Sample.three_xml Sample.three_root []).
  reflexivity.
Defined.

(** The scenario of the specification: three entries, one excluded, two
    records. *)
Example parse_sitemap_three_entries :
  parse_sitemap Sample.offline Sample.scraper Sample.three_xml [] =
  (inr [ {| URLRecord.url := "https://support.touchgfx.com/docs/introduction/welcome";
            URLRecord.changefreq := Some "";
            URLRecord.priority := Some "";
            URLRecord.lastmod := Some "2024-05-01" |};
         {| URLRecord.url := "https://support.touchgfx.com/docs/basic-concepts/rendering";
            URLRecord.changefreq := Some "weekly";
            URLRecord.priority := Some "0.5";
            URLRecord.lastmod := Some "" |} ], []).
Proof. vm_compute. reflexivity. Qed.

(** C4. An entry whose [<changefreq/>] element is present but empty gets
    the value [None] for [changefreq], not the empty string: the
    conditional expression tests the element, not its text. *)
Theorem parse_sitemap_empty_changefreq_is_None :
  parse_sitemap Sample.offline Sample.scraper Sample.empty_changefreq_xml [] =
  (inr [ {| URLRecord.url := "https://support.touchgfx.com/docs/introduction/welcome";
            URLRecord.changefreq := None;
            URLRecord.priority := Some "";
            URLRecord.lastmod := Some "" |} ], []).
Proof. vm_compute. reflexivity. Qed.

Lemma parse_sitemap_result_independent env self xml_content (t t' : Trace) :
  (parse_sitemap env self xml_content t).1 =
  (parse_sitemap env self xml_content t').1.
Proof.
  destruct (fromstring env xml_content) as [msg|root] eqn:H.
  - by rewrite !(parse_sitemap_malformed _ _ _ msg) by done.
  - by rewrite !(parse_sitemap_parsed _ _ _ root) by done.
Qed.

(** C5. Parsing the same text twice in a row, the second time in the world
    the first call left behind, gives the same outcome both times: the
    same sequence of records, or the same parse error. *)
Theorem parse_sitemap_twice_same
        (env : Env) (self : TouchGFXSitemapScraper) (xml_content : string)
        (t : Trace) :
  let first := parse_sitemap env self xml_content t in
  let second := parse_sitemap env self xml_content first.2 in
  first.1 = second.1.
Proof. simpl. apply parse_sitemap_result_independent. Qed.

(** ** The two probes *)

Lemma get_last_modified_from_page_answered env self url t response :
  send env t (head_request self url) = inr response ->
  get_last_modified_from_page env self url t =
  (inr (if truthy (Response.headers_get response "Last-Modified")
        then Response.headers_get response "Last-Modified"
        else if truthy (Response.headers_get response "Date")
             then Response.headers_get response "Date"
             else None),
   t ++ [Sent (head_request self url)]).
Proof.
  intros H.
  unfold get_last_modified_from_page, try_except, session_head, session_request.
  rewrite bind_run. fold (head_request self url). rewrite H.
  destruct (truthy (Response.headers_get response "Last-Modified")); [done|].
  by destruct (truthy (Response.headers_get response "Date")).
Qed.

Lemma get_last_modified_from_page_failed env self url t e :
  send env t (head_request self url) = inl e ->
  is_RequestException e = true ->
  get_last_modified_from_page env self url t =
  (inr None,
   t ++ [Sent (head_request self url); Printed (ErrorFetchingHeaders url e)]).
Proof.
  intros H He.
  unfold get_last_modified_from_page, try_except, session_head, session_request.
  rewrite bind_run. fold (head_request self url). rewrite H, He.
  unfold print, emit, mret, M_ret, mbind, M_bind.
  by rewrite <- app_assoc.
Qed.

Lemma get_last_modified_from_page_escaped env self url t e :
  send env t (head_request self url) = inl e ->
  is_RequestException e = false ->
  get_last_modified_from_page env self url t =
  (inl e, t ++ [Sent (head_request self url)]).
Proof.
  intros H He.
  unfold get_last_modified_from_page, try_except, session_head, session_request.
  rewrite bind_run. fold (head_request self url). by rewrite H, He.
Qed.

(** The header probe either returns, having sent its one request, or lets
    out the exception of the request when that is not a
    [RequestException]. *)
Lemma get_last_modified_from_page_outcome env self url t :
  (exists (v : pystr) (new : Trace),
      get_last_modified_from_page env self url t = (inr v, t ++ new) /\
      head_requests new = [url] /\ get_requests new = [] /\
      files_written new = [] /\
      requests_sent new = [head_request self url] /\
      sleeps new = [] /\ progress_lines new = []) \/
  (exists e : Exception,
      get_last_modified_from_page env self url t =
        (inl e, t ++ [Sent (head_request self url)]) /\
      is_RequestException e = false /\
      send env t (head_request self url) = inl e).
Proof.
  destruct (send env t (head_request self url)) as [e|response] eqn:H.
  - destruct (is_RequestException e) eqn:He.
    + left. rewrite (get_last_modified_from_page_failed _ _ _ _ e H He).
      by eexists _, _.
    + right. exists e.
      by rewrite (get_last_modified_from_page_escaped _ _ _ _ e H He).
  - left. rewrite (get_last_modified_from_page_answered _ _ _ _ response H).
    by eexists _, _.
Qed.

Lemma get_last_modified_from_html_answered env self url t response soup :
  send env t (page_request self url) = inr response ->
  BeautifulSoup env (Response.text response) = inr soup ->
  get_last_modified_from_html env self url t =
  (inr (html_last_modified soup), t ++ [Sent (page_request self url)]).
Proof.
  intros H Hsoup.
  unfold get_last_modified_from_html, try_except, session_get, session_request.
  rewrite bind_run. fold (page_request self url). rewrite H.
  rewrite bind_run. unfold make_soup. rewrite Hsoup. simpl.
  unfold html_last_modified.
  destruct (has_content (BS.find soup (Some "meta") _)); [done|].
  by destruct (has_content (BS.find soup None _)).
Qed.

Lemma get_last_modified_from_html_unparsed env self url t response e :
  send env t (page_request self url) = inr response ->
  BeautifulSoup env (Response.text response) = inl e ->
  get_last_modified_from_html env self url t =
  (inr None,
   t ++ [Sent (page_request self url); Printed (ErrorFetchingHTML url e)]).
Proof.
  intros H Hsoup.
  unfold get_last_modified_from_html, try_except, session_get, session_request.
  rewrite bind_run. fold (page_request self url). rewrite H.
  rewrite bind_run. unfold make_soup. rewrite Hsoup. simpl.
  unfold print, emit, mret, M_ret, mbind, M_bind.
  by rewrite <- app_assoc.
Qed.

Lemma get_last_modified_from_html_failed env self url t e :
  send env t (page_request self url) = inl e ->
  get_last_modified_from_html env self url t =
  (inr None,
   t ++ [Sent (page_request self url); Printed (ErrorFetchingHTML url e)]).
Proof.
  intros H.
  unfold get_last_modified_from_html, try_except, session_get, session_request.
  rewrite bind_run. fold (page_request self url). rewrite H. simpl.
  unfold print, emit, mret, M_ret, mbind, M_bind.
  by rewrite <- app_assoc.
Qed.

(** The HTML probe always returns, having sent its one request. *)
Lemma get_last_modified_from_html_returns env self url t :
  exists (v : pystr) (new : Trace),
    get_last_modified_from_html env self url t = (inr v, t ++ new) /\
    head_requests new = [] /\ get_requests new = [url] /\
    files_written new = [] /\
    requests_sent new = [page_request self url] /\
    sleeps new = [] /\ progress_lines new = [].
Proof.
  destruct (send env t (page_request self url)) as [e|response] eqn:H.
  - rewrite (get_last_modified_from_html_failed _ _ _ _ e H). by eexists _, _.
  - destruct (BeautifulSoup env (Response.text response)) as [e|soup] eqn:Hs.
    + rewrite (get_last_modified_from_html_unparsed _ _ _ _ response e H Hs).
      by eexists _, _.
    + rewrite (get_last_modified_from_html_answered _ _ _ _ response soup H Hs).
      by eexists _, _.
Qed.

(** ** [scrape_pages] *)

Lemma slice_to_MAX {A} (l : list A) :
  slice_to l MAX_URLS_TO_FETCH = take 10 l.
Proof. reflexivity. Qed.

Lemma requests_sent_app (a b : Trace) :
  requests_sent (a ++ b) = requests_sent a ++ requests_sent b.
Proof. apply omap_app. Qed.

Lemma sleeps_app (a b : Trace) : sleeps (a ++ b) = sleeps a ++ sleeps b.
Proof. apply omap_app. Qed.

Lemma progress_lines_app (a b : Trace) :
  progress_lines (a ++ b) = progress_lines a ++ progress_lines b.
Proof. apply omap_app. Qed.

Lemma probed_in_earlier env self (t0 t t' : Trace) u e :
  t0 `prefix_of` t -> probed_in env self t t' u e -> probed_in env self t0 t' u e.
Proof.
  intros H0 (before & middle & after & h1 & h2 & Hb & Hp & Hh & Ha & ->).
  exists before, middle, after, h1, h2.
  repeat split; try done. by etrans.
Qed.

Lemma probed_in_derived env self (t t' : Trace) u e :
  probed_in env self t t' u e -> derived_from u e.
Proof.
  intros (before & middle & after & h1 & h2 & _ & _ & _ & _ & ->).
  by exists h1, h2.
Qed.

Lemma uncaught_head_error_cons env self u urls_data e :
  uncaught_head_error env self urls_data e ->
  uncaught_head_error env self (u :: urls_data) e.
Proof.
  intros (He & tr & u' & Hu' & Hsend). split; [done|].
  exists tr, u'. split; [by apply list_elem_of_further|done].
Qed.

(** The loop of [scrape_pages], from any turn on: either it returns, with
    one record per remaining input record, or the HEAD request of one of
    them raised an exception the probe does not catch. *)
Lemma scrape_loop_outcome env self (n : nat) (urls_data : list URLRecord.t) :
  forall (i : nat) (results : list Enriched.t) (t : Trace),
  exists (out : Exception + list Enriched.t) (new : Trace),
    scrape_loop env self n i urls_data results t = (out, t ++ new) /\
    files_written new = [] /\
    match out with
    | inr all =>
        exists added : list Enriched.t,
          all = results ++ added /\
          Forall2 (probed_in env self t (t ++ new)) urls_data added /\
          head_requests new = map URLRecord.url urls_data /\
          get_requests new = map URLRecord.url urls_data /\
          requests_sent new = flat_map (probe_requests self) urls_data /\
          sleeps new = replicate (length urls_data) FETCH_DELAY /\
          progress_lines new =
            imap (fun k u => ProcessingURL (i + k) n (URLRecord.url u)) urls_data
    | inl e => uncaught_head_error env self urls_data e
    end.
Proof.
  induction urls_data as [|u rest IH]; intros i results t.
  - exists (inr results), []. simpl. rewrite !app_nil_r.
    repeat split; try done. exists []. by rewrite app_nil_r.
  - cbn [scrape_loop].
    rewrite bind_run, print_run. cbv beta iota.
    rewrite bind_run.
    destruct (get_last_modified_from_page_outcome env self (URLRecord.url u)
                (t ++ [Printed (ProcessingURL i n (URLRecord.url u))]))
      as [(h1 & new1 & Hpage & Hh1 & Hg1 & Hw1 & Hr1 & Hs1 & Hp1)
         |(e & Hpage & He & Hsend)]; rewrite Hpage; cbv beta iota.
    2: { exists (inl e),
           [Printed (ProcessingURL i n (URLRecord.url u));
            Sent (head_request self (URLRecord.url u))].
         split; [by rewrite <- app_assoc|]. split; [done|].
         split; [done|]. eexists _, u. split; [apply list_elem_of_here|exact Hsend]. }
    rewrite bind_run.
    destruct (get_last_modified_from_html_returns env self (URLRecord.url u)
                ((t ++ [Printed (ProcessingURL i n (URLRecord.url u))]) ++ new1))
      as (h2 & new2 & Hhtml & Hh2 & Hg2 & Hw2 & Hr2 & Hs2 & Hp2).
    rewrite Hhtml. cbv beta iota. rewrite bind_run, sleep_run. cbv beta iota.
    match goal with
    | |- context [scrape_loop env self n (S i) rest ?r ?tr] =>
        destruct (IH (S i) r tr) as (out & new & -> & Hw & Hout);
        set (t_rest := tr) in *
    end.
    exists
      (match out with
       | inr all => inr all
       | inl e => inl e
       end),
      ([Printed (ProcessingURL i n (URLRecord.url u))] ++ new1 ++ new2 ++
       [Slept FETCH_DELAY] ++ new).
    assert (Htr : t_rest ++ new =
                  t ++ [Printed (ProcessingURL i n (URLRecord.url u))] ++
                  new1 ++ new2 ++ [Slept FETCH_DELAY] ++ new).
    { unfold t_rest. by rewrite <- !app_assoc. }
    split; [by destruct out; rewrite Htr|].
    split; [by rewrite !files_written_app, Hw1, Hw2, Hw|].
    destruct out as [e|all]; [by apply uncaught_head_error_cons|].
    destruct Hout as (added & -> & Hadded & Hh & Hg & Hr & Hs & Hp).
    eexists (_ :: added). split; [by rewrite <- app_assoc|].
    split.
    { constructor.
      - eexists (t ++ [Printed (ProcessingURL i n (URLRecord.url u))]), _, _, h1, h2.
        split; [by apply prefix_app_r|].
        split; [exact Hpage|]. split; [exact Hhtml|].
        split; [|done].
        rewrite <- Htr. unfold t_rest. rewrite <- (app_assoc _ [Slept FETCH_DELAY] new).
        by apply prefix_app_r.
      - rewrite <- Htr. eapply Forall2_impl; [exact Hadded|].
        intros u' e'. apply probed_in_earlier.
        unfold t_rest. rewrite <- !app_assoc. by apply prefix_app_r. }
    rewrite !head_requests_app, !get_requests_app, !requests_sent_app,
      !sleeps_app, !progress_lines_app.
    rewrite Hh1, Hh2, Hh, Hg1, Hg2, Hg, Hr1, Hr2, Hr, Hs1, Hs2, Hs, Hp1, Hp2, Hp.
    repeat split; try done.
    rewrite imap_cons. simpl. rewrite Nat.add_0_r. f_equal.
    apply imap_ext. intros k x _. simpl. f_equal. lia.
Qed.

(** [scrape_pages] either returns one record per record of the capped list,
    each made by the two probes, or was stopped by a HEAD request that
    raised an exception the probe does not catch. *)
Lemma scrape_pages_outcome env self (urls_data : list URLRecord.t) (t : Trace) :
  exists (out : Exception + list Enriched.t) (new : Trace),
    scrape_pages env self urls_data t = (out, t ++ new) /\
    files_written new = [] /\
    match out with
    | inr results =>
        Forall2 (probed_in env self t (t ++ new))
                (slice_to urls_data MAX_URLS_TO_FETCH) results /\
        head_requests new =
          map URLRecord.url (slice_to urls_data MAX_URLS_TO_FETCH) /\
        get_requests new =
          map URLRecord.url (slice_to urls_data MAX_URLS_TO_FETCH) /\
        requests_sent new =
          flat_map (probe_requests self) (slice_to urls_data MAX_URLS_TO_FETCH) /\
        sleeps new =
          replicate (length (slice_to urls_data MAX_URLS_TO_FETCH)) FETCH_DELAY /\
        progress_lines new =
          ProcessingURLs (length (slice_to urls_data MAX_URLS_TO_FETCH)) ::
          imap (fun k u =>
                  ProcessingURL (S k)
                    (length (slice_to urls_data MAX_URLS_TO_FETCH))
                    (URLRecord.url u))
               (slice_to urls_data MAX_URLS_TO_FETCH)
    | inl e =>
        uncaught_head_error env self (slice_to urls_data MAX_URLS_TO_FETCH) e
    end.
Proof.
  unfold scrape_pages. rewrite bind_run, print_run. cbv beta iota zeta.
  match goal with
  | |- context [scrape_loop env self ?n 1 ?l [] ?tr] =>
      destruct (scrape_loop_outcome env self n l 1 [] tr)
        as (out & new & -> & Hw & Hout)
  end.
  exists out,
    ([Printed (ProcessingURLs (length (slice_to urls_data MAX_URLS_TO_FETCH)))] ++ new).
  split; [by rewrite <- app_assoc|].
  split; [by rewrite files_written_app, Hw|].
  destruct out as [e|results]; [done|].
  destruct Hout as (added & -> & Hadded & Hh & Hg & Hr & Hs & Hp).
  split.
  { rewrite app_assoc. eapply Forall2_impl; [exact Hadded|].
    intros u e. apply probed_in_earlier. by apply prefix_app_r. }
  rewrite !head_requests_app, !get_requests_app, !requests_sent_app,
    !sleeps_app, !progress_lines_app, Hh, Hg, Hr, Hs, Hp.
  done.
Qed.

(** Where every failing HEAD request fails with a [RequestException],
    [scrape_pages] returns. *)
Lemma scrape_pages_returns env self (urls_data : list URLRecord.t)
      (out : Exception + list Enriched.t) :
  head_failures_caught env self ->
  match out with
  | inr results => True
  | inl e => uncaught_head_error env self (slice_to urls_data MAX_URLS_TO_FETCH) e
  end ->
  exists results, out = inr results.
Proof.
  intros Hcaught Hout. destruct out as [e|results]; [|by exists results].
  destruct Hout as (He & tr & u & _ & Hsend).
  apply Hcaught in Hsend. congruence.
Qed.

Lemma derived_from_fields (u : URLRecord.t) (e : Enriched.t) :
  derived_from u e ->
  Enriched.url e = URLRecord.url u /\
  Enriched.changefreq e = URLRecord.changefreq u /\
  Enriched.priority e = URLRecord.priority u /\
  Enriched.sitemap_lastmod e = URLRecord.lastmod u.
Proof. by intros (h1 & h2 & ->). Qed.

Lemma length_slice_to_MAX {A} (l : list A) :
  length (slice_to l MAX_URLS_TO_FETCH) =
  Nat.min (length l) (Z.to_nat MAX_URLS_TO_FETCH).
Proof. rewrite slice_to_MAX, length_take. apply Nat.min_comm. Qed.

Lemma offline_head_failures_caught :
  head_failures_caught Sample.offline Sample.scraper.
Proof. intros tr url e H. injection H as <-. reflexivity. Defined.

(** C2. [scrape_pages] either returns or is stopped by a HEAD request that
    raised an exception other than a [RequestException] (which the header
    probe does not catch); it returns wherever the failing HEAD requests
    fail with a [RequestException].  When it returns, the number of records
    is at most [MAX_URLS_TO_FETCH], equals the number of HEAD probes it
    sent, equals the smaller of the input length and the maximum, and the
    records carry, in order, the URLs of the capped input, which are the
    URLs probed. *)
Theorem scrape_pages_count_capped
        (env : Env) (self : TouchGFXSitemapScraper)
        (urls_data : list URLRecord.t) (t : Trace) :
  exists (out : Exception + list Enriched.t) (new : Trace),
    scrape_pages env self urls_data t = (out, t ++ new) /\
    match out with
    | inr results =>
        (Z.of_nat (length results) <= MAX_URLS_TO_FETCH)%Z /\
        length results = length (head_requests new) /\
        length results = Nat.min (length urls_data) (Z.to_nat MAX_URLS_TO_FETCH) /\
        Forall2 (fun u e => Enriched.url e = URLRecord.url u)
                (slice_to urls_data MAX_URLS_TO_FETCH) results /\
        head_requests new = map Enriched.url results
    | inl e =>
        uncaught_head_error env self (slice_to urls_data MAX_URLS_TO_FETCH) e
    end /\
    (head_failures_caught env self -> exists results, out = inr results).
Proof.
  destruct (scrape_pages_outcome env self urls_data t)
    as (out & new & Hrun & _ & Hout).
  exists out, new. split; [done|].
  split; [|intros Hc; apply (scrape_pages_returns env self urls_data out Hc);
           by destruct out].
  destruct out as [e|results]; [done|].
  destruct Hout as (Hprobed & Hh & _).
  assert (Hurls : Forall2 (fun u e => Enriched.url e = URLRecord.url u)
                          (slice_to urls_data MAX_URLS_TO_FETCH) results).
  { eapply Forall2_impl; [exact Hprobed|].
    intros u e H. apply probed_in_derived in H.
    by destruct (derived_from_fields u e H). }
  assert (Hlen : length results =
                 Nat.min (length urls_data) (Z.to_nat MAX_URLS_TO_FETCH)).
  { rewrite <- length_slice_to_MAX. symmetry. by eapply Forall2_length. }
  assert (Hmap : map URLRecord.url (slice_to urls_data MAX_URLS_TO_FETCH) =
                 map Enriched.url results).
  { clear -Hurls. induction Hurls; simpl; congruence. }
  split; [rewrite Hlen; unfold MAX_URLS_TO_FETCH; lia|].
  split; [by rewrite Hh, Hmap, length_map|].
  split; [done|].
  split; [done|].
  by rewrite Hh.
Qed.

Lemma scrape_pages_count_capped_witness :
  exists (results : list Enriched.t) (t' : Trace),
    scrape_pages Sample.offline Sample.scraper Sample.eleven [] =
      (inr results, t') /\
    (Z.of_nat (length results) <= MAX_URLS_TO_FETCH)%Z /\
    length results =
      Nat.min (length Sample.eleven) (Z.to_nat MAX_URLS_TO_FETCH).
Proof.
  destruct (scrape_pages_count_capped
              Sample.offline Sample.scraper Sample.eleven [])
    as (out & new & Hrun & Hout & Hreturns).
  destruct (Hreturns offline_head_failures_caught) as (results & ->).
  destruct Hout as (Hmax & _ & Hmin & _).
  exists results, ([] ++ new). split; [exact Hrun|]. split; assumption.
Defined.

(** C10. When [scrape_pages] returns (it does wherever the failing HEAD
    requests fail with a [RequestException]; otherwise such a request
    stopped it), it has kept the order of its capped input: the output is
    as long as the capped input, and the record at every position [i] of
    the capped input was turned into the record at position [i] of the
    output, with [url], [changefreq] and [priority] copied unchanged,
    [lastmod] copied into [sitemap_lastmod], and as the only additions the
    result of the header probe and the result of the HTML probe that ran
    right after it during this run (each or-ed with the empty string). *)
Theorem scrape_pages_order_and_copies
        (env : Env) (self : TouchGFXSitemapScraper)
        (urls_data : list URLRecord.t) (t : Trace) :
  exists (out : Exception + list Enriched.t) (new : Trace),
    scrape_pages env self urls_data t = (out, t ++ new) /\
    match out with
    | inr results =>
        length results = length (slice_to urls_data MAX_URLS_TO_FETCH) /\
        forall (i : nat) (u : URLRecord.t),
          slice_to urls_data MAX_URLS_TO_FETCH !! i = Some u ->
          exists (before middle after : Trace)
                 (http_last_modified http_last_modified2 : pystr),
            t `prefix_of` before /\
            get_last_modified_from_page env self (URLRecord.url u) before =
              (inr http_last_modified, middle) /\
            get_last_modified_from_html env self (URLRecord.url u) middle =
              (inr http_last_modified2, after) /\
            after `prefix_of` t ++ new /\
            results !! i =
            Some {| Enriched.url := URLRecord.url u;
                    Enriched.changefreq := URLRecord.changefreq u;
                    Enriched.priority := URLRecord.priority u;
                    Enriched.sitemap_lastmod := URLRecord.lastmod u;
                    Enriched.http_last_modified :=
                      py_or http_last_modified (Some "");
                    Enriched.http_last_modified2 :=
                      py_or http_last_modified2 (Some "") |}
    | inl e =>
        uncaught_head_error env self (slice_to urls_data MAX_URLS_TO_FETCH) e
    end /\
    (head_failures_caught env self -> exists results, out = inr results).
Proof.
  destruct (scrape_pages_outcome env self urls_data t)
    as (out & new & Hrun & _ & Hout).
  exists out, new. split; [done|].
  split; [|intros Hc; apply (scrape_pages_returns env self urls_data out Hc);
           by destruct out].
  destruct out as [e|results]; [done|].
  destruct Hout as (Hprobed & _).
  split; [symmetry; by eapply Forall2_length|].
  intros i u Hi.
  destruct (Forall2_lookup_l _ _ _ _ _ Hprobed Hi)
    as (e & He & before & middle & after & h1 & h2 & Hb & Hp & Hh & Ha & ->).
  by exists before, middle, after, h1, h2.
Qed.

Lemma scrape_pages_order_and_copies_witness :
  exists (results : list Enriched.t) (t' : Trace)
         (http_last_modified http_last_modified2 : pystr),
    scrape_pages Sample.offline Sample.scraper Sample.eleven [] =
      (inr results, t') /\
    results !! 9%nat =
    Some {| Enriched.url := "https://support.touchgfx.com/docs/page-10";
            Enriched.changefreq := Some "weekly";
            Enriched.priority := Some "0.5";
            Enriched.sitemap_lastmod := Some "2024-05-10";
            Enriched.http_last_modified := py_or http_last_modified (Some "");
            Enriched.http_last_modified2 := py_or http_last_modified2 (Some "") |}.
Proof.
  destruct (scrape_pages_order_and_copies
              Sample.offline Sample.scraper Sample.eleven [])
    as (out & new & Hrun & Hout & Hreturns).
  destruct (Hreturns offline_head_failures_caught) as (results & ->).
  destruct Hout as (_ & Hall).
  destruct (Hall 9%nat (Sample.page "10") eq_refl)
    as (before & middle & after & h1 & h2 & _ & _ & _ & _ & Hi).
  exists results, ([] ++ new), h1, h2. split; [exact Hrun|exact Hi].
Defined.

(** C3. When [scrape_pages] returns (it does wherever the failing HEAD
    requests fail with a [RequestException]; otherwise such a request
    stopped it), a record among the first [MAX_URLS_TO_FETCH] of the list
    handed to it (whether or not its URL is matched by the exclusion
    pattern) has been turned into exactly one output record: the output
    record at its own position has its URL and its [lastmod] as
    [sitemap_lastmod], every output position holds the record made from
    the input position of the same index, no output position lies at or
    past the cap, and when the input URLs are pairwise different no other
    output record carries that URL. *)
Theorem scrape_pages_capped_record_once
        (env : Env) (self : TouchGFXSitemapScraper)
        (urls_data : list URLRecord.t) (t : Trace)
        (i : nat) (u : URLRecord.t) :
  urls_data !! i = Some u ->
  (Z.of_nat i < MAX_URLS_TO_FETCH)%Z ->
  exists (out : Exception + list Enriched.t) (new : Trace),
    scrape_pages env self urls_data t = (out, t ++ new) /\
    match out with
    | inr results =>
        (exists e : Enriched.t,
            results !! i = Some e /\
            Enriched.url e = URLRecord.url u /\
            Enriched.sitemap_lastmod e = URLRecord.lastmod u) /\
        (forall (j : nat) (e' : Enriched.t),
            results !! j = Some e' ->
            exists u', urls_data !! j = Some u' /\ derived_from u' e') /\
        (forall j : nat,
            (MAX_URLS_TO_FETCH <= Z.of_nat j)%Z -> results !! j = None) /\
        (NoDup (map URLRecord.url urls_data) ->
         forall (j : nat) (e' : Enriched.t),
           results !! j = Some e' ->
           Enriched.url e' = URLRecord.url u -> j = i)
    | inl e =>
        uncaught_head_error env self (slice_to urls_data MAX_URLS_TO_FETCH) e
    end /\
    (head_failures_caught env self -> exists results, out = inr results).
Proof.
  intros Hi Hcap.
  destruct (scrape_pages_outcome env self urls_data t)
    as (out & new & Hrun & _ & Hout).
  exists out, new. split; [done|].
  split; [|intros Hc; apply (scrape_pages_returns env self urls_data out Hc);
           by destruct out].
  destruct out as [e|results]; [done|].
  destruct Hout as (Hprobed & _).
  assert (Hder : Forall2 derived_from
                         (slice_to urls_data MAX_URLS_TO_FETCH) results).
  { eapply Forall2_impl; [exact Hprobed|]. intros u' e'. apply probed_in_derived. }
  assert (Hsrc : forall j e', results !! j = Some e' ->
                   exists u', urls_data !! j = Some u' /\ derived_from u' e').
  { intros j e' Hj.
    destruct (Forall2_lookup_r _ _ _ _ _ Hder Hj) as (u' & Hu' & Hd).
    exists u'. split; [|done].
    rewrite slice_to_MAX in Hu'. by apply lookup_take_Some in Hu' as [? _]. }
  assert (Hi' : slice_to urls_data MAX_URLS_TO_FETCH !! i = Some u).
  { rewrite slice_to_MAX, lookup_take_lt; [done|].
    unfold MAX_URLS_TO_FETCH in Hcap. lia. }
  destruct (Forall2_lookup_l _ _ _ _ _ Hder Hi') as (e & He & Hd).
  destruct (derived_from_fields u e Hd) as (Hurl & _ & _ & Hlast).
  split; [by exists e|]. split; [exact Hsrc|].
  split.
  { intros j Hj. apply lookup_ge_None.
    rewrite <- (Forall2_length _ _ _ Hder), length_slice_to_MAX.
    unfold MAX_URLS_TO_FETCH in *. lia. }
  intros Hnd j e' Hj Hsame.
  destruct (Hsrc j e' Hj) as (u' & Hu' & Hd').
  destruct (derived_from_fields u' e' Hd') as (Hurl' & _).
  eapply NoDup_lookup; [exact Hnd| |].
  - rewrite list_lookup_fmap, Hu'. simpl. reflexivity.
  - rewrite list_lookup_fmap, Hi. simpl. congruence.
Qed.

Lemma scrape_pages_capped_record_once_witness :
  Sample.eleven !! 0%nat = Some (Sample.page "01") /\
  (Z.of_nat 0 < MAX_URLS_TO_FETCH)%Z /\
  exists (results : list Enriched.t) (t' : Trace) (e : Enriched.t),
    scrape_pages Sample.offline Sample.scraper Sample.eleven [] = (inr results, t') /\
    results !! 0%nat = Some e /\
    Enriched.url e = URLRecord.url (Sample.page "01") /\
    Enriched.sitemap_lastmod e = URLRecord.lastmod (Sample.page "01") /\
    (forall j : nat,
        (MAX_URLS_TO_FETCH <= Z.of_nat j)%Z -> results !! j = None).
Proof.
  split; [reflexivity|]. split; [reflexivity|].
  destruct (scrape_pages_capped_record_once
              Sample.offline Sample.scraper Sample.eleven [] 0 (Sample.page "01")
              eq_refl eq_refl)
    as (out & new & Hrun & Hout & Hreturns).
  destruct (Hreturns offline_head_failures_caught) as (results & ->).
  destruct Hout as ((e & He & Hurl & Hlast) & _ & Hcap & _).
  exists results, ([] ++ new), e.
  split; [exact Hrun|]. split; [exact He|]. split; [exact Hurl|].
  split; [exact Hlast|exact Hcap].
Defined.

(** With eleven records, none of them excluded, the eleventh is in the
    input of [scrape_pages] and in none of the records it returns; and
    with the same address listed twice, that address is in two of the
    records it returns. *)
Lemma scrape_pages_drops_eleventh_record :
  (Sample.eleven !! 10%nat = Some (Sample.page "11") /\
   Re.matches (url_pattern Sample.scraper) (URLRecord.url (Sample.page "11")) = false /\
   exists (results : list Enriched.t) (t' : Trace),
     scrape_pages Sample.offline Sample.scraper Sample.eleven [] = (inr results, t') /\
     Forall (fun e => Enriched.url e <> URLRecord.url (Sample.page "11")) results) /\
  (Re.matches (url_pattern Sample.scraper) (URLRecord.url (Sample.page "01")) = false /\
   exists (results : list Enriched.t) (t' : Trace),
     scrape_pages Sample.offline Sample.scraper Sample.twice [] = (inr results, t') /\
     map Enriched.url results =
       [URLRecord.url (Sample.page "01"); URLRecord.url (Sample.page "01")]).
Proof.
  split.
  - split; [reflexivity|]. split; [reflexivity|].
    eexists _, _. split; [vm_compute; reflexivity|].
    repeat constructor; discriminate.
  - split; [reflexivity|].
    eexists _, _. split; [vm_compute; reflexivity|]. reflexivity.
Qed.

(** C6. When the HEAD request is answered, [get_last_modified_from_page]
    returns the [Last-Modified] value if that header is present and not
    empty; otherwise the [Date] value if that header is present and not
    empty; otherwise [None].  When the request fails with a
    [RequestException] it prints the error and returns [None].  So where
    the request can fail with a [RequestException] only, the function
    returns: no exception leaves it. *)
Theorem get_last_modified_from_page_header_fallback
        (env : Env) (self : TouchGFXSitemapScraper) (url : string) (t : Trace) :
  let sent := t ++ [Sent (head_request self url)] in
  (forall (response : Response.t) (value : string),
      send env t (head_request self url) = inr response ->
      Response.headers_get response "Last-Modified" = Some value ->
      value <> "" ->
      get_last_modified_from_page env self url t = (inr (Some value), sent)) /\
  (forall (response : Response.t) (value : string),
      send env t (head_request self url) = inr response ->
      truthy (Response.headers_get response "Last-Modified") = false ->
      Response.headers_get response "Date" = Some value ->
      value <> "" ->
      get_last_modified_from_page env self url t = (inr (Some value), sent)) /\
  (forall response : Response.t,
      send env t (head_request self url) = inr response ->
      truthy (Response.headers_get response "Last-Modified") = false ->
      truthy (Response.headers_get response "Date") = false ->
      get_last_modified_from_page env self url t = (inr None, sent)) /\
  (forall e : Exception,
      send env t (head_request self url) = inl e ->
      is_RequestException e = true ->
      get_last_modified_from_page env self url t =
      (inr None, sent ++ [Printed (ErrorFetchingHeaders url e)])) /\
  ((forall e : Exception,
       send env t (head_request self url) = inl e ->
       is_RequestException e = true) ->
   exists (v : pystr) (t' : Trace),
     get_last_modified_from_page env self url t = (inr v, t')).
Proof.
  assert (Htruthy : forall value : string, value <> "" -> truthy (Some value) = true).
  { intros value Hv. simpl. apply negb_true_iff, String.eqb_neq. exact Hv. }
  simpl. repeat split.
  - intros response value H Hlm Hv.
    rewrite (get_last_modified_from_page_answered _ _ _ _ response H).
    by rewrite Hlm, (Htruthy value Hv).
  - intros response value H Hlm Hd Hv.
    rewrite (get_last_modified_from_page_answered _ _ _ _ response H).
    by rewrite Hlm, Hd, (Htruthy value Hv).
  - intros response H Hlm Hd.
    rewrite (get_last_modified_from_page_answered _ _ _ _ response H).
    by rewrite Hlm, Hd.
  - intros e H He.
    rewrite (get_last_modified_from_page_failed _ _ _ _ e H He).
    by rewrite <- app_assoc.
  - intros Hcaught.
    destruct (get_last_modified_from_page_outcome env self url t)
      as [(v & new & H & _)|(e & _ & He & Hsend)].
    + by exists v, (t ++ new).
    + apply Hcaught in Hsend. congruence.
Qed.

(** The scenario of the specification: no [Last-Modified] header, a [Date]
    header. *)
Lemma get_last_modified_from_page_header_fallback_witness :
  get_last_modified_from_page
    (Sample.answering Sample.date_only) Sample.scraper Sample.welcome [] =
  (inr (Some "Tue, 01 Jan 2030 00:00:00 GMT"),
   [Sent (head_request Sample.scraper Sample.welcome)]).
Proof.
  apply (proj1 (proj2 (get_last_modified_from_page_header_fallback
                         (Sample.answering Sample.date_only)
                         Sample.scraper Sample.welcome []))
           Sample.date_only Sample.date_value).
  - reflexivity.
  - reflexivity.
  - reflexivity.
  - discriminate.
Defined.

(** A [Last-Modified] header that is present with an empty value is not
    what the function returns: it returns the [Date] value. *)
Lemma get_last_modified_from_page_skips_empty_last_modified :
  send (Sample.answering Sample.empty_last_modified) []
       (head_request Sample.scraper Sample.welcome) =
    inr Sample.empty_last_modified /\
  Response.headers_get Sample.empty_last_modified "Last-Modified" = Some "" /\
  get_last_modified_from_page
    (Sample.answering Sample.empty_last_modified) Sample.scraper Sample.welcome [] =
  (inr (Some "Tue, 01 Jan 2030 00:00:00 GMT"),
   [Sent (head_request Sample.scraper Sample.welcome)]) /\
  (get_last_modified_from_page
     (Sample.answering Sample.empty_last_modified) Sample.scraper Sample.welcome []).1 <>
  inr (Response.headers_get Sample.empty_last_modified "Last-Modified").
Proof.
  split; [reflexivity|]. split; [reflexivity|].
  split; [vm_compute; reflexivity|].
  vm_compute. discriminate.
Qed.

Lemma has_content_false (found : option BS.Tag) :
  has_content found = false <->
  found = None \/
  exists tag, found = Some tag /\
              (BS.get tag "content" = None \/ BS.get tag "content" = Some "").
Proof.
  destruct found as [tag|]; simpl; [|by split; [left|]].
  split.
  - intros H. right. exists tag. split; [done|].
    destruct (BS.get tag "content") as [c|]; [|by left].
    right. simpl in H. apply negb_false_iff, String.eqb_eq in H. by subst.
  - intros [|(tag' & [= <-] & [-> | ->])]; done.
Qed.

Lemma has_content_true (found : option BS.Tag) (tag : BS.Tag) (value : string) :
  found = Some tag -> BS.get tag "content" = Some value -> value <> "" ->
  has_content found = true /\ content_of found = Some value.
Proof.
  intros -> Hget Hv. simpl. rewrite Hget. split; [|done].
  simpl. by apply negb_true_iff, String.eqb_neq.
Qed.

(** [soup.find] returns the first selected tag in document order. *)
Lemma find_first_selected (soup tag : BS.Tag) wanted_name wanted_attrs :
  BS.find soup wanted_name wanted_attrs = Some tag ->
  exists before after,
    BS.descendants soup = before ++ tag :: after /\
    BS.selected wanted_name wanted_attrs tag = true /\
    Forall (fun other => BS.selected wanted_name wanted_attrs other = false) before.
Proof.
  unfold BS.find. generalize (BS.descendants soup) as tags.
  induction tags as [|x tags IH]; simpl; [done|].
  destruct (BS.selected wanted_name wanted_attrs x) eqn:Hx.
  - intros [= ->]. by exists [], tags.
  - intros H. destruct (IH H) as (before & after & -> & Hsel & Hbefore).
    exists (x :: before), after. repeat split; [done|]. by constructor.
Qed.

(** C7. When the GET request is answered and the page parses,
    [get_last_modified_from_html] returns the [content] of the first
    [<meta name="last-modified">] tag if that tag is present with a
    non-empty [content]; otherwise (tag absent, or its [content] missing
    or empty) the [content] of the first tag with
    [itemprop="dateModified"] if that is present and not empty; otherwise
    [None].  When the request or the parsing fails it prints the error and
    returns [None].  In every case it returns: no exception leaves the
    function. *)
Theorem get_last_modified_from_html_lookup
        (env : Env) (self : TouchGFXSitemapScraper) (url : string) (t : Trace) :
  let sent := t ++ [Sent (page_request self url)] in
  (forall (response : Response.t) (soup meta : BS.Tag) (value : string),
      send env t (page_request self url) = inr response ->
      BeautifulSoup env (Response.text response) = inr soup ->
      BS.find soup (Some "meta") [("name", "last-modified")] = Some meta ->
      BS.get meta "content" = Some value ->
      value <> "" ->
      get_last_modified_from_html env self url t = (inr (Some value), sent)) /\
  (forall (response : Response.t) (soup schema : BS.Tag) (value : string),
      send env t (page_request self url) = inr response ->
      BeautifulSoup env (Response.text response) = inr soup ->
      has_content (BS.find soup (Some "meta") [("name", "last-modified")]) = false ->
      BS.find soup None [("itemprop", "dateModified")] = Some schema ->
      BS.get schema "content" = Some value ->
      value <> "" ->
      get_last_modified_from_html env self url t = (inr (Some value), sent)) /\
  (forall (response : Response.t) (soup : BS.Tag),
      send env t (page_request self url) = inr response ->
      BeautifulSoup env (Response.text response) = inr soup ->
      has_content (BS.find soup (Some "meta") [("name", "last-modified")]) = false ->
      has_content (BS.find soup None [("itemprop", "dateModified")]) = false ->
      get_last_modified_from_html env self url t = (inr None, sent)) /\
  (forall (response : Response.t) (e : Exception),
      send env t (page_request self url) = inr response ->
      BeautifulSoup env (Response.text response) = inl e ->
      get_last_modified_from_html env self url t =
      (inr None, sent ++ [Printed (ErrorFetchingHTML url e)])) /\
  (forall e : Exception,
      send env t (page_request self url) = inl e ->
      get_last_modified_from_html env self url t =
      (inr None, sent ++ [Printed (ErrorFetchingHTML url e)])) /\
  (exists (v : pystr) (t' : Trace),
      get_last_modified_from_html env self url t = (inr v, t')).
Proof.
  simpl. repeat split.
  - intros response soup meta value H Hs Hfind Hget Hv.
    rewrite (get_last_modified_from_html_answered _ _ _ _ response soup H Hs).
    unfold html_last_modified.
    destruct (has_content_true _ meta value Hfind Hget Hv) as [-> ->]. done.
  - intros response soup schema value H Hs Hmeta Hfind Hget Hv.
    rewrite (get_last_modified_from_html_answered _ _ _ _ response soup H Hs).
    unfold html_last_modified. rewrite Hmeta.
    destruct (has_content_true _ schema value Hfind Hget Hv) as [-> ->]. done.
  - intros response soup H Hs Hmeta Hschema.
    rewrite (get_last_modified_from_html_answered _ _ _ _ response soup H Hs).
    unfold html_last_modified. by rewrite Hmeta, Hschema.
  - intros response e H Hs.
    rewrite (get_last_modified_from_html_unparsed _ _ _ _ response e H Hs).
    by rewrite <- app_assoc.
  - intros e H.
    rewrite (get_last_modified_from_html_failed _ _ _ _ e H).
    by rewrite <- app_assoc.
  - destruct (get_last_modified_from_html_returns env self url t)
      as (v & new & H & _).
    by exists v, (t ++ new).
Qed.

(** The scenario of the specification: a page with
    [<meta name="last-modified" content="2024-05-01">]. *)
Lemma get_last_modified_from_html_lookup_witness :
  get_last_modified_from_html
    (Sample.serving Sample.meta_html) Sample.scraper Sample.welcome [] =
  (inr (Some "2024-05-01"), [Sent (page_request Sample.scraper Sample.welcome)]).
Proof.
  apply (proj1 (get_last_modified_from_html_lookup
                  (Sample.serving Sample.meta_html)
                  Sample.scraper Sample.welcome [])
           (Sample.response 200 [] Sample.meta_html) Sample.meta_soup
           (BS.mkTag "meta"
              {[ "name" := "last-modified"; "content" := "2024-05-01" ]} [])
           "2024-05-01").
  - reflexivity.
  - reflexivity.
  - reflexivity.
  - reflexivity.
  - discriminate.
Defined.

(** A page on which the [<meta name="last-modified">] tag is present but
    has no [content]: the [dateModified] item is consulted all the same,
    and its value, not a value of the meta tag, is returned. *)
Lemma get_last_modified_from_html_consults_schema_despite_meta :
  BeautifulSoup (Sample.serving Sample.bare_meta_html) Sample.bare_meta_html =
    inr Sample.bare_meta_soup /\
  BS.find Sample.bare_meta_soup (Some "meta") [("name", "last-modified")] =
    Some Sample.bare_meta /\
  BS.get Sample.bare_meta "content" = None /\
  get_last_modified_from_html
    (Sample.serving Sample.bare_meta_html) Sample.scraper Sample.welcome [] =
  (inr (Some "2023-11-30"), [Sent (page_request Sample.scraper Sample.welcome)]) /\
  (get_last_modified_from_html
     (Sample.serving Sample.bare_meta_html) Sample.scraper Sample.welcome []).1 <>
  inr (BS.get Sample.bare_meta "content").
Proof.
  split; [reflexivity|]. split; [vm_compute; reflexivity|].
  split; [reflexivity|]. split; [vm_compute; reflexivity|].
  vm_compute. discriminate.
Qed.


(** ** [fetch_sitemap], [run] and [main] *)

Lemma fetch_sitemap_failed env self t e :
  send env t (sitemap_request self) = inl e ->
  is_RequestException e = true ->
  fetch_sitemap env self t =
  (inl e, t ++ [Sent (sitemap_request self); Printed (ErrorFetchingSitemap e)]).
Proof.
  intros H He. unfold fetch_sitemap, try_except, session_get, session_request.
  rewrite bind_run. fold (sitemap_request self). rewrite H, He.
  rewrite bind_run, print_run. by rewrite <- app_assoc.
Qed.

Lemma fetch_sitemap_escaped env self t e :
  send env t (sitemap_request self) = inl e ->
  is_RequestException e = false ->
  fetch_sitemap env self t = (inl e, t ++ [Sent (sitemap_request self)]).
Proof.
  intros H He. unfold fetch_sitemap, try_except, session_get, session_request.
  rewrite bind_run. fold (sitemap_request self). by rewrite H, He.
Qed.

Lemma fetch_sitemap_error_status env self t response :
  send env t (sitemap_request self) = inr response ->
  (400 <= Response.status_code response < 600)%Z ->
  fetch_sitemap env self t =
  (inl (HTTPError (Response.status_code response)),
   t ++ [Sent (sitemap_request self);
         Printed (ErrorFetchingSitemap (HTTPError (Response.status_code response)))]).
Proof.
  intros H [Hlo Hhi].
  unfold fetch_sitemap, try_except, session_get, session_request.
  rewrite bind_run. fold (sitemap_request self). rewrite H.
  rewrite bind_run. unfold raise_for_status.
  apply Z.leb_le in Hlo. apply Z.ltb_lt in Hhi. rewrite Hlo, Hhi. simpl.
  rewrite bind_run, print_run. by rewrite <- app_assoc.
Qed.

Lemma fetch_sitemap_fetched env self t response :
  send env t (sitemap_request self) = inr response ->
  ~ (400 <= Response.status_code response < 600)%Z ->
  fetch_sitemap env self t =
  (inr (Response.text response), t ++ [Sent (sitemap_request self)]).
Proof.
  intros H Hstatus.
  unfold fetch_sitemap, try_except, session_get, session_request.
  rewrite bind_run. fold (sitemap_request self). rewrite H.
  rewrite bind_run. unfold raise_for_status.
  destruct ((400 <=? Response.status_code response)%Z &&
            (Response.status_code response <? 600)%Z) eqn:Hc; [|done].
  apply andb_prop in Hc as [Hlo Hhi].
  apply Z.leb_le in Hlo. apply Z.ltb_lt in Hhi. lia.
Qed.

Lemma run_fetch_raises env self t e t' :
  fetch_sitemap env self
    (t ++ [Printed StartingScraper; Printed FetchingSitemap]) = (inl e, t') ->
  run env self t = (inl e, t').
Proof.
  intros H. unfold run.
  rewrite bind_run, print_run. cbv beta iota.
  rewrite bind_run, print_run. cbv beta iota.
  rewrite <- app_assoc. simpl app.
  by rewrite bind_run, H.
Qed.

Lemma main_run_raises env t e t' :
  run env (new_scraper default_sitemap_url) t = (inl e, t') ->
  main env t =
  (inr tt,
   t' ++ [Printed (ErrorDuringScraping e);
          Printed (ElapsedTime (clock env t' - clock env t))]).
Proof.
  intros H. unfold main, time_time, try_except.
  rewrite bind_run. cbv beta iota.
  rewrite bind_run, H.
  cbv beta iota. unfold is_Exception.
  rewrite bind_run. cbv beta iota.
  rewrite bind_run, print_run. cbv beta iota.
  rewrite print_run. by rewrite <- app_assoc.
Qed.

(** C8. If the request for the sitemap fails with a [RequestException], or
    is answered with a status from 400 to 599, [main] returns normally (no
    exception escapes); what it did is: the two opening lines, the sitemap
    request, the fetch error line, then the top-level error line and the
    elapsed-time line.  No file is written and no page is probed. *)
Theorem main_reports_fetch_failure (env : Env) (t : Trace) (e : Exception) :
  let self := new_scraper default_sitemap_url in
  let t1 := t ++ [Printed StartingScraper; Printed FetchingSitemap] in
  (send env t1 (sitemap_request self) = inl e /\
   is_RequestException e = true) \/
  (exists response : Response.t,
      send env t1 (sitemap_request self) = inr response /\
      (400 <= Response.status_code response < 600)%Z /\
      e = HTTPError (Response.status_code response)) ->
  exists (new : Trace) (elapsed : Q),
    main env t = (inr tt, t ++ new) /\
    new = [Printed StartingScraper; Printed FetchingSitemap;
           Sent (sitemap_request self);
           Printed (ErrorFetchingSitemap e);
           Printed (ErrorDuringScraping e);
           Printed (ElapsedTime elapsed)] /\
    elapsed =
      (clock env (t1 ++ [Sent (sitemap_request self);
                         Printed (ErrorFetchingSitemap e)]) - clock env t)%Q /\
    files_written new = [] /\
    head_requests new = [] /\
    get_requests new = [sitemap_url self].
Proof.
  intros self t1 Hfail.
  assert (Hfetch : fetch_sitemap env self t1 =
                   (inl e, t1 ++ [Sent (sitemap_request self);
                                  Printed (ErrorFetchingSitemap e)])).
  { destruct Hfail as [(H & He) | (response & H & Hstatus & ->)].
    - by apply fetch_sitemap_failed.
    - by apply fetch_sitemap_error_status. }
  apply run_fetch_raises, main_run_raises in Hfetch.
  eexists _, _. split.
  - rewrite Hfetch. unfold t1. rewrite <- !app_assoc. simpl app. reflexivity.
  - split; [reflexivity|].
    split; [unfold t1; by rewrite <- app_assoc|].
    done.
Qed.

(** The scenario of the specification: the sitemap request is answered
    with HTTP 500. *)
Lemma main_reports_fetch_failure_witness :
  exists (new : Trace) (elapsed : Q),
    main (Sample.answering (Sample.response 500 [] "")) [] = (inr tt, [] ++ new) /\
    new = [Printed StartingScraper; Printed FetchingSitemap;
           Sent (sitemap_request Sample.scraper);
           Printed (ErrorFetchingSitemap (HTTPError 500));
           Printed (ErrorDuringScraping (HTTPError 500));
           Printed (ElapsedTime elapsed)] /\
    elapsed =
      (clock (Sample.answering (Sample.response 500 [] ""))
             (([] ++ [Printed StartingScraper; Printed FetchingSitemap]) ++
              [Sent (sitemap_request Sample.scraper);
               Printed (ErrorFetchingSitemap (HTTPError 500))]) -
       clock (Sample.answering (Sample.response 500 [] "")) [])%Q /\
    files_written new = [] /\
    head_requests new = [] /\
    get_requests new = [sitemap_url Sample.scraper].
Proof.
  apply (main_reports_fetch_failure
           (Sample.answering (Sample.response 500 [] "")) [] (HTTPError 500)).
  right. exists (Sample.response 500 [] "").
  split; [reflexivity|]. split; [|reflexivity].
  split; [discriminate|reflexivity].
Defined.

Example main_offline :
  main Sample.offline [] =
  (inr tt,
   [Printed StartingScraper; Printed FetchingSitemap;
    Sent (sitemap_request Sample.scraper);
    Printed (ErrorFetchingSitemap (RequestException "connection refused"));
    Printed (ErrorDuringScraping (RequestException "connection refused"));
    Printed (ElapsedTime (4 - 0))]).
Proof. reflexivity. Qed.

Lemma parse_root_nothing_kept self root :
  filter (fun e => kept self e = true) (url_elements root) = [] ->
  parse_root self root = [].
Proof.
  intros H. pose proof (parse_root_kept self root) as Hk.
  rewrite H in Hk. by apply Forall2_nil_inv_l in Hk.
Qed.

(** C9. If the sitemap is fetched and parsed and no entry survives the
    filter, [run] returns the empty string; what it did is: the two
    opening lines, the sitemap request, the parsing line, the count line
    and the empty-result line.  No page is probed and no file is
    written. *)
Theorem run_ends_early_without_urls
        (env : Env) (self : TouchGFXSitemapScraper) (t : Trace)
        (response : Response.t) (root : ET.Element) :
  let t1 := t ++ [Printed StartingScraper; Printed FetchingSitemap] in
  send env t1 (sitemap_request self) = inr response ->
  ~ (400 <= Response.status_code response < 600)%Z ->
  fromstring env (Response.text response) = inr root ->
  filter (fun e => kept self e = true) (url_elements root) = [] ->
  exists new : Trace,
    run env self t = (inr "", t ++ new) /\
    new = [Printed StartingScraper; Printed FetchingSitemap;
           Sent (sitemap_request self);
           Printed ParsingSitemap; Printed (FoundURLs 0);
           Printed NoURLsFound] /\
    head_requests new = [] /\
    get_requests new = [sitemap_url self] /\
    files_written new = [].
Proof.
  intros t1 Hsend Hstatus Hparse Hnone.
  eexists. split; [|done].
  unfold run.
  rewrite bind_run, print_run. cbv beta iota.
  rewrite bind_run, print_run. cbv beta iota.
  rewrite <- app_assoc. simpl app. fold t1.
  rewrite bind_run, (fetch_sitemap_fetched _ _ _ response Hsend Hstatus).
  cbv beta iota. rewrite bind_run, print_run. cbv beta iota.
  rewrite bind_run, (parse_sitemap_parsed _ _ _ root _ Hparse).
  rewrite (parse_root_nothing_kept _ _ Hnone).
  cbv beta iota. rewrite bind_run, print_run. cbv beta iota.
  rewrite bind_run, print_run. cbv beta iota.
  unfold t1. rewrite <- !app_assoc. simpl app. reflexivity.
Qed.

Lemma run_ends_early_without_urls_witness :
  exists new : Trace,
    run (Sample.serving Sample.excluded_xml) Sample.scraper [] = (inr "", [] ++ new) /\
    new = [Printed StartingScraper; Printed FetchingSitemap;
           Sent (sitemap_request Sample.scraper);
           Printed ParsingSitemap; Printed (FoundURLs 0);
           Printed NoURLsFound] /\
    head_requests new = [] /\
    get_requests new = [sitemap_url Sample.scraper] /\
    files_written new = [].
Proof.
  apply (run_ends_early_without_urls
           (Sample.serving Sample.excluded_xml) Sample.scraper []
           (Sample.response 200 [] Sample.excluded_xml) Sample.excluded_root).
  - reflexivity.
  - intros [H _]. exact (H eq_refl).
  - reflexivity.
  - reflexivity.
Defined.


(** ** A complete run *)

Lemma save_to_csv_written env self (data : list Enriched.t) (t : Trace) :
  open_for_writing env t (default_filename (clock env t)) = None ->
  write_error env t (default_filename (clock env t)) = None ->
  save_to_csv env self data None t =
  (inr (default_filename (clock env t)),
   t ++ [Wrote (default_filename (clock env t)) (fieldnames :: map csv_row data);
         Printed (DataSavedTo (default_filename (clock env t)))]).
Proof.
  intros Hopen Hwrite.
  unfold save_to_csv, time_time, write_csv, print, emit, mbind, M_bind, mret, M_ret.
  cbv beta iota zeta. fold (default_filename (clock env t)).
  rewrite Hopen, Hwrite. by rewrite <- app_assoc.
Qed.

Lemma save_to_csv_refused env self (data : list Enriched.t) (t : Trace) msg :
  open_for_writing env t (default_filename (clock env t)) = Some msg ->
  save_to_csv env self data None t = (inl (OSError msg), t).
Proof.
  intros Hopen.
  unfold save_to_csv, time_time, write_csv, print, emit, mbind, M_bind, mret, M_ret.
  cbv beta iota zeta. fold (default_filename (clock env t)).
  by rewrite Hopen.
Qed.

Lemma save_to_csv_unfinished env self (data : list Enriched.t) (t : Trace) msg :
  open_for_writing env t (default_filename (clock env t)) = None ->
  write_error env t (default_filename (clock env t)) = Some msg ->
  save_to_csv env self data None t =
  (inl (OSError msg), t ++ [Truncated (default_filename (clock env t))]).
Proof.
  intros Hopen Hwrite.
  unfold save_to_csv, time_time, write_csv, print, emit, mbind, M_bind, mret, M_ret.
  cbv beta iota zeta. fold (default_filename (clock env t)).
  by rewrite Hopen, Hwrite.
Qed.

Lemma run_no_records env self t response root :
  send env (t ++ [Printed StartingScraper; Printed FetchingSitemap])
       (sitemap_request self) = inr response ->
  ~ (400 <= Response.status_code response < 600)%Z ->
  fromstring env (Response.text response) = inr root ->
  parse_root self root = [] ->
  run env self t =
  (inr "",
   t ++ [Printed StartingScraper; Printed FetchingSitemap;
         Sent (sitemap_request self);
         Printed ParsingSitemap; Printed (FoundURLs 0);
         Printed NoURLsFound]).
Proof.
  intros Hsend Hstatus Hparse Hnone. unfold run.
  rewrite bind_run, print_run. cbv beta iota.
  rewrite bind_run, print_run. cbv beta iota.
  rewrite <- app_assoc. simpl app.
  rewrite bind_run, (fetch_sitemap_fetched _ _ _ response Hsend Hstatus).
  cbv beta iota. rewrite bind_run, print_run. cbv beta iota.
  rewrite bind_run, (parse_sitemap_parsed _ _ _ root _ Hparse), Hnone.
  cbv beta iota. rewrite bind_run, print_run. cbv beta iota.
  rewrite bind_run, print_run. cbv beta iota.
  by rewrite <- !app_assoc.
Qed.

Lemma run_parse_raises env self t response msg :
  send env (t ++ [Printed StartingScraper; Printed FetchingSitemap])
       (sitemap_request self) = inr response ->
  ~ (400 <= Response.status_code response < 600)%Z ->
  fromstring env (Response.text response) = inl msg ->
  run env self t =
  (inl (ParseError msg),
   t ++ [Printed StartingScraper; Printed FetchingSitemap;
         Sent (sitemap_request self); Printed ParsingSitemap;
         Printed (ErrorParsingXML (ParseError msg))]).
Proof.
  intros Hsend Hstatus Hparse. unfold run.
  rewrite bind_run, print_run. cbv beta iota.
  rewrite bind_run, print_run. cbv beta iota.
  rewrite <- app_assoc. simpl app.
  rewrite bind_run, (fetch_sitemap_fetched _ _ _ response Hsend Hstatus).
  cbv beta iota. rewrite bind_run, print_run. cbv beta iota.
  rewrite bind_run, (parse_sitemap_malformed _ _ _ msg _ Hparse).
  by rewrite <- !app_assoc.
Qed.

(** [run] once at least one record is kept: the probes, which may be
    stopped by an exception the header probe does not catch, then the
    attempt to open and to write the file. *)
Lemma run_scraped env self t response root :
  send env (t ++ [Printed StartingScraper; Printed FetchingSitemap])
       (sitemap_request self) = inr response ->
  ~ (400 <= Response.status_code response < 600)%Z ->
  fromstring env (Response.text response) = inr root ->
  parse_root self root <> [] ->
  exists (scraped : Exception + list Enriched.t) (new : Trace),
    files_written new = [] /\
    match scraped with
    | inl e =>
        uncaught_head_error env self
          (slice_to (parse_root self root) MAX_URLS_TO_FETCH) e /\
        run env self t = (inl e, t ++ new)
    | inr results =>
        Forall2 derived_from
                (slice_to (parse_root self root) MAX_URLS_TO_FETCH) results /\
        head_requests new =
          map URLRecord.url (slice_to (parse_root self root) MAX_URLS_TO_FETCH) /\
        run env self t =
          match open_for_writing env (t ++ new)
                                 (default_filename (clock env (t ++ new))) with
          | Some msg => (inl (OSError msg), t ++ new)
          | None =>
              match write_error env (t ++ new)
                                (default_filename (clock env (t ++ new))) with
              | Some msg =>
                  (inl (OSError msg),
                   t ++ new ++
                   [Truncated (default_filename (clock env (t ++ new)))])
              | None =>
                  (inr (default_filename (clock env (t ++ new))),
                   t ++ new ++
                   [Wrote (default_filename (clock env (t ++ new)))
                          (fieldnames :: map csv_row results);
                    Printed (DataSavedTo (default_filename (clock env (t ++ new))));
                    Printed (ScrapingCompleted
                               (default_filename (clock env (t ++ new))))])
              end
          end
    end.
Proof.
  intros Hsend Hstatus Hparse Hsome.
  unfold run.
  rewrite bind_run, print_run. cbv beta iota.
  rewrite bind_run, print_run. cbv beta iota.
  rewrite <- app_assoc. simpl app.
  rewrite bind_run, (fetch_sitemap_fetched _ _ _ response Hsend Hstatus).
  cbv beta iota. rewrite bind_run, print_run. cbv beta iota.
  rewrite bind_run, (parse_sitemap_parsed _ _ _ root _ Hparse).
  cbv beta iota. rewrite bind_run, print_run. cbv beta iota.
  destruct (parse_root self root) as [|u urls_data] eqn:Hroot; [done|].
  rewrite bind_run.
  match goal with
  | |- context [scrape_pages env self ?l ?tr] =>
      destruct (scrape_pages_outcome env self l tr)
        as (scraped & new & -> & Hw & Hout)
  end.
  exists scraped,
    ([Printed StartingScraper; Printed FetchingSitemap;
      Sent (sitemap_request self); Printed ParsingSitemap;
      Printed (FoundURLs (length (u :: urls_data)))] ++ new).
  split; [by rewrite files_written_app, Hw|].
  replace (t ++ [Printed StartingScraper; Printed FetchingSitemap;
                 Sent (sitemap_request self); Printed ParsingSitemap;
                 Printed (FoundURLs (length (u :: urls_data)))] ++ new)
    with (((((t ++ [Printed StartingScraper; Printed FetchingSitemap]) ++
             [Sent (sitemap_request self)]) ++ [Printed ParsingSitemap]) ++
           [Printed (FoundURLs (length (u :: urls_data)))]) ++ new)
    by (by rewrite <- !app_assoc).
  destruct scraped as [e|results]; [done|].
  destruct Hout as (Hprobed & Hh & _).
  split.
  { eapply Forall2_impl; [exact Hprobed|]. intros u' e'. apply probed_in_derived. }
  split; [by rewrite head_requests_app, Hh|].
  cbv beta iota. rewrite bind_run.
  match goal with
  | |- context [save_to_csv env self results None ?tr] =>
      destruct (open_for_writing env tr (default_filename (clock env tr)))
        as [msg|] eqn:Hopen;
      [|destruct (write_error env tr (default_filename (clock env tr)))
          as [msg|] eqn:Hwrite]
  end.
  - by rewrite (save_to_csv_refused _ _ _ _ msg Hopen).
  - rewrite (save_to_csv_unfinished _ _ _ _ msg Hopen Hwrite).
    by rewrite <- !app_assoc.
  - rewrite (save_to_csv_written _ _ _ _ Hopen Hwrite).
    cbv beta iota. rewrite bind_run, print_run. cbv beta iota.
    by rewrite <- !app_assoc.
Qed.

Lemma main_run_returns env t filename t' :
  run env (new_scraper default_sitemap_url) t = (inr filename, t') ->
  main env t =
  (inr tt,
   t' ++ [Printed (ProcessCompleted filename);
          Printed (ElapsedTime (clock env t' - clock env t))]).
Proof.
  intros H. unfold main, time_time, try_except.
  rewrite bind_run. cbv beta iota.
  rewrite bind_run, H.
  cbv beta iota. rewrite bind_run. cbv beta iota.
  rewrite bind_run, print_run. cbv beta iota.
  rewrite print_run. by rewrite <- app_assoc.
Qed.


(** ** Further properties of [parse_sitemap] *)

Lemma parse_url_element_not_excluded self url_element r :
  parse_url_element self [] url_element = [r] ->
  Re.matches (url_pattern self) (URLRecord.url r) = false.
Proof.
  unfold parse_url_element.
  destruct (ET.find url_element "ns:loc" namespace) as [loc|]; [|done].
  destruct (ET.text loc) as [u|]; [|done].
  destruct (Re.matches (url_pattern self) u) eqn:Hm; [done|].
  by intros [= <-].
Qed.

(** The loop, entry by entry: a kept entry adds the one record the loop body
    builds for it, any other entry adds nothing. *)
Lemma parse_loop_records self (entries : list ET.Element)
      (urls_data : list URLRecord.t) :
  exists added,
    foldl (parse_url_element self) urls_data entries = urls_data ++ added /\
    Forall2 (fun url_element r => parse_url_element self [] url_element = [r])
            (filter (fun e => kept self e = true) entries) added.
Proof.
  revert urls_data. induction entries as [|e entries IH]; intros urls_data.
  - exists []. split; [by rewrite app_nil_r|constructor].
  - simpl. rewrite parse_url_element_appends.
    destruct (IH (urls_data ++ parse_url_element self [] e)) as (added & -> & Hadded).
    destruct (kept self e) eqn:Hk.
    + destruct (parse_url_element_kept self e Hk) as (r & Hr & _).
      rewrite Hr. exists (r :: added). split; [by rewrite <- app_assoc|].
      rewrite filter_cons_True by done. by constructor.
    + rewrite (parse_url_element_skipped self e Hk), app_nil_r.
      exists added. split; [done|].
      rewrite filter_cons_False; [done|]. by rewrite Hk.
Qed.

Lemma parse_root_records self root :
  Forall2 (fun url_element r => parse_url_element self [] url_element = [r])
          (filter (fun e => kept self e = true) (url_elements root))
          (parse_root self root).
Proof.
  unfold parse_root.
  destruct (parse_loop_records self (ET.findall root "ns:url" namespace) [])
    as (added & -> & H).
  exact H.
Qed.

(** X2. No record [parse_sitemap] returns has a URL that the exclusion
    pattern of the scraper matches. *)
Theorem parse_sitemap_returns_no_excluded_url
        (env : Env) (self : TouchGFXSitemapScraper) (xml_content : string)
        (root : ET.Element) (t : Trace) :
  fromstring env xml_content = inr root ->
  exists urls_data : list URLRecord.t,
    parse_sitemap env self xml_content t = (inr urls_data, t) /\
    Forall (fun r => Re.matches (url_pattern self) (URLRecord.url r) = false)
           urls_data.
Proof.
  intros Hparse. exists (parse_root self root).
  split; [by apply parse_sitemap_parsed|].
  eapply Forall2_Forall_r; [exact (parse_root_records self root)|].
  apply Forall_forall. intros e _ r Hr.
  by apply (parse_url_element_not_excluded self e).
Qed.

Lemma parse_sitemap_returns_no_excluded_url_witness :
  fromstring Sample.offline Sample.three_xml = inr Sample.three_root /\
  exists urls_data : list URLRecord.t,
    parse_sitemap Sample.offline Sample.scraper Sample.three_xml [] =
      (inr urls_data, []) /\
    Forall (fun r => Re.matches (url_pattern Sample.scraper) (URLRecord.url r) = false)
           urls_data.
Proof.
  split; [reflexivity|].
  apply (parse_sitemap_returns_no_excluded_url
           Sample.offline Sample.scraper Sample.three_xml Sample.three_root []).
  reflexivity.
Defined.

(** X3. In every record [parse_sitemap] returns, [changefreq], [priority]
    and [lastmod] are read off the entry the record was made from: the
    text of the entry's first child with that tag when there is one
    ([None] when that child has no text), the empty string when there is
    none. *)
Theorem parse_sitemap_optional_fields
        (env : Env) (self : TouchGFXSitemapScraper) (xml_content : string)
        (root : ET.Element) (t : Trace) :
  fromstring env xml_content = inr root ->
  exists urls_data : list URLRecord.t,
    parse_sitemap env self xml_content t = (inr urls_data, t) /\
    Forall2 (fun url_element r =>
               URLRecord.changefreq r = optional_text url_element "ns:changefreq" /\
               URLRecord.priority r = optional_text url_element "ns:priority" /\
               URLRecord.lastmod r = optional_text url_element "ns:lastmod")
            (filter (fun e => kept self e = true) (url_elements root))
            urls_data.
Proof.
  intros Hparse. exists (parse_root self root).
  split; [by apply parse_sitemap_parsed|].
  eapply Forall2_impl; [exact (parse_root_records self root)|].
  intros e r Hr. exact (parse_url_element_optional self e r Hr).
Qed.

Lemma parse_sitemap_optional_fields_witness :
  fromstring Sample.offline Sample.empty_changefreq_xml =
    inr Sample.empty_changefreq_root /\
  exists urls_data : list URLRecord.t,
    parse_sitemap Sample.offline Sample.scraper Sample.empty_changefreq_xml [] =
      (inr urls_data, []) /\
    Forall2 (fun url_element r =>
               URLRecord.changefreq r = optional_text url_element "ns:changefreq" /\
               URLRecord.priority r = optional_text url_element "ns:priority" /\
               URLRecord.lastmod r = optional_text url_element "ns:lastmod")
            (filter (fun e => kept Sample.scraper e = true)
                    (url_elements Sample.empty_changefreq_root))
            urls_data.
Proof.
  split; [reflexivity|].
  apply (parse_sitemap_optional_fields
           Sample.offline Sample.scraper Sample.empty_changefreq_xml
           Sample.empty_changefreq_root []).
  reflexivity.
Defined.

(** ** Further properties of [fetch_sitemap] and of the probes *)

(** X4. [fetch_sitemap] makes one attempt: whatever the outcome, the only
    request is one GET of the sitemap URL with the session headers and a
    timeout of 30, and nothing is written.  It returns the body exactly
    when the request is answered with a status outside 400 to 599 (a 204
    or a 304, say).  A [RequestException] of the request, and the
    [HTTPError] for a status from 400 to 599, are printed once and raised
    again; any other exception of the request leaves the function without
    being printed. *)
Theorem fetch_sitemap_single_attempt
        (env : Env) (self : TouchGFXSitemapScraper) (t : Trace) :
  exists (out : Exception + string) (new : Trace),
    fetch_sitemap env self t = (out, t ++ new) /\
    requests_sent new = [sitemap_request self] /\
    files_written new = [] /\
    match out with
    | inr text =>
        new = [Sent (sitemap_request self)] /\
        exists response,
          send env t (sitemap_request self) = inr response /\
          ~ (400 <= Response.status_code response < 600)%Z /\
          text = Response.text response
    | inl e =>
        (is_RequestException e = true /\
         new = [Sent (sitemap_request self); Printed (ErrorFetchingSitemap e)] /\
         (send env t (sitemap_request self) = inl e \/
          exists response,
            send env t (sitemap_request self) = inr response /\
            (400 <= Response.status_code response < 600)%Z /\
            e = HTTPError (Response.status_code response))) \/
        (is_RequestException e = false /\
         new = [Sent (sitemap_request self)] /\
         send env t (sitemap_request self) = inl e)
    end.
Proof.
  destruct (send env t (sitemap_request self)) as [e|response] eqn:Hsend.
  - destruct (is_RequestException e) eqn:He.
    + eexists _, _. split; [by apply fetch_sitemap_failed|].
      repeat split; try done. left. repeat split; try done. by left.
    + eexists _, _. split; [by apply fetch_sitemap_escaped|].
      repeat split; try done. by right.
  - destruct (decide (400 <= Response.status_code response < 600)%Z) as [Hs|Hs].
    + eexists _, _. split; [by apply fetch_sitemap_error_status|].
      repeat split; try done. left. repeat split; try done.
      right. by exists response.
    + eexists _, _. split; [by apply fetch_sitemap_fetched|].
      repeat split; try done. by exists response.
Qed.

Lemma has_content_truthy (found : option BS.Tag) :
  has_content found = true -> truthy (content_of found) = true.
Proof. by destruct found. Qed.

Lemma truthy_not_empty (v : pystr) : truthy v = true -> v <> Some "".
Proof. by intros H ->. Qed.

(** X5. Neither probe ever returns the empty string.  The HTML probe
    always returns, [None] or a non-empty value.  The header probe returns
    [None] or a non-empty value unless its request raised an exception
    that is not a [RequestException], which then leaves the probe. *)
Theorem probes_return_none_or_nonempty
        (env : Env) (self : TouchGFXSitemapScraper) (url : string) (t : Trace) :
  (exists (out : Exception + pystr) (t' : Trace),
      get_last_modified_from_page env self url t = (out, t') /\
      match out with
      | inr v => v <> Some ""
      | inl e =>
          send env t (head_request self url) = inl e /\
          is_RequestException e = false
      end) /\
  (exists (v : pystr) (t' : Trace),
      get_last_modified_from_html env self url t = (inr v, t') /\
      v <> Some "").
Proof.
  split.
  - destruct (send env t (head_request self url)) as [e|response] eqn:H.
    + destruct (is_RequestException e) eqn:He.
      * rewrite (get_last_modified_from_page_failed _ _ _ _ e H He).
        by eexists (inr None), _.
      * rewrite (get_last_modified_from_page_escaped _ _ _ _ e H He).
        by eexists (inl e), _.
    + rewrite (get_last_modified_from_page_answered _ _ _ _ response H).
      eexists (inr _), _. split; [reflexivity|].
      destruct (truthy (Response.headers_get response "Last-Modified")) eqn:Hlm;
        [by apply truthy_not_empty|].
      destruct (truthy (Response.headers_get response "Date")) eqn:Hd;
        [by apply truthy_not_empty|done].
  - destruct (send env t (page_request self url)) as [e|response] eqn:H.
    + rewrite (get_last_modified_from_html_failed _ _ _ _ e H). by eexists _, _.
    + destruct (BeautifulSoup env (Response.text response)) as [e|soup] eqn:Hs.
      * rewrite (get_last_modified_from_html_unparsed _ _ _ _ response e H Hs).
        by eexists _, _.
      * rewrite (get_last_modified_from_html_answered _ _ _ _ response soup H Hs).
        eexists _, _. split; [reflexivity|].
        unfold html_last_modified.
        destruct (has_content (BS.find soup (Some "meta") _)) eqn:Hm;
          [by apply truthy_not_empty, has_content_truthy|].
        destruct (has_content (BS.find soup None _)) eqn:Hsc;
          [by apply truthy_not_empty, has_content_truthy|done].
Qed.

(** X6. The header probe never looks at the status or the body of the
    answer: two answers with the same headers (a 200 and a 404, say) give
    the same result. *)
Theorem get_last_modified_from_page_ignores_status
        (env env' : Env) (self : TouchGFXSitemapScraper) (url : string)
        (t t' : Trace) (response response' : Response.t) :
  send env t (head_request self url) = inr response ->
  send env' t' (head_request self url) = inr response' ->
  Response.headers response = Response.headers response' ->
  (get_last_modified_from_page env self url t).1 =
  (get_last_modified_from_page env' self url t').1.
Proof.
  intros H H' Hheaders.
  rewrite (get_last_modified_from_page_answered _ _ _ _ response H).
  rewrite (get_last_modified_from_page_answered _ _ _ _ response' H').
  unfold Response.headers_get. by rewrite Hheaders.
Qed.

Lemma get_last_modified_from_page_ignores_status_witness :
  (get_last_modified_from_page
     (Sample.answering Sample.date_only) Sample.scraper Sample.welcome []).1 =
  (get_last_modified_from_page
     (Sample.answering Sample.not_found) Sample.scraper Sample.welcome []).1.
Proof.
  apply (get_last_modified_from_page_ignores_status
           (Sample.answering Sample.date_only)
           (Sample.answering Sample.not_found)
           Sample.scraper Sample.welcome [] []
           Sample.date_only Sample.not_found);
    reflexivity.
Defined.

(** ** Further properties of [run] and [main] *)

(** X7. If the sitemap is fetched but is not well-formed XML, [main]
    returns normally: the parse error is printed by [parse_sitemap], then
    reported by [main] with the elapsed time; no page is probed and no
    file is written. *)
Theorem main_reports_parse_failure
        (env : Env) (t : Trace) (response : Response.t) (msg : string) :
  let self := new_scraper default_sitemap_url in
  send env (t ++ [Printed StartingScraper; Printed FetchingSitemap])
       (sitemap_request self) = inr response ->
  ~ (400 <= Response.status_code response < 600)%Z ->
  fromstring env (Response.text response) = inl msg ->
  exists (new : Trace) (elapsed : Q),
    main env t = (inr tt, t ++ new) /\
    new = [Printed StartingScraper; Printed FetchingSitemap;
           Sent (sitemap_request self); Printed ParsingSitemap;
           Printed (ErrorParsingXML (ParseError msg));
           Printed (ErrorDuringScraping (ParseError msg));
           Printed (ElapsedTime elapsed)] /\
    head_requests new = [] /\
    files_written new = [].
Proof.
  intros self Hsend Hstatus Hparse.
  pose proof (run_parse_raises env self t response msg Hsend Hstatus Hparse) as Hrun.
  apply main_run_raises in Hrun.
  eexists _, _. split.
  - rewrite Hrun. rewrite <- !app_assoc. simpl app. reflexivity.
  - done.
Qed.

Lemma main_reports_parse_failure_witness :
  exists (new : Trace) (elapsed : Q),
    main (Sample.serving Sample.malformed_xml) [] = (inr tt, [] ++ new) /\
    new = [Printed StartingScraper; Printed FetchingSitemap;
           Sent (sitemap_request Sample.scraper); Printed ParsingSitemap;
           Printed (ErrorParsingXML (ParseError "syntax error: line 1, column 0"));
           Printed (ErrorDuringScraping (ParseError "syntax error: line 1, column 0"));
           Printed (ElapsedTime elapsed)] /\
    head_requests new = [] /\
    files_written new = [].
Proof.
  apply (main_reports_parse_failure
           (Sample.serving Sample.malformed_xml) []
           (Sample.response 200 [] Sample.malformed_xml)
           "syntax error: line 1, column 0").
  - reflexivity.
  - intros [H _]. exact (H eq_refl).
  - reflexivity.
Defined.

(** ** Further properties of [scrape_pages] *)

(** X8. When [scrape_pages] returns (otherwise a HEAD request that raised
    an exception other than a [RequestException] stopped it), it has
    worked through the capped list one record at a time: the requests it
    sent are, in order, a HEAD then a GET for the first record, then for
    the second, and so on, each with a timeout of 10; only the HEAD
    carries the [X-Purpose] header.  It has paused [FETCH_DELAY] once per
    record, also after the last one.  In no case does it write a file. *)
Theorem scrape_pages_requests_and_pauses
        (env : Env) (self : TouchGFXSitemapScraper)
        (urls_data : list URLRecord.t) (t : Trace) :
  exists (out : Exception + list Enriched.t) (new : Trace),
    scrape_pages env self urls_data t = (out, t ++ new) /\
    files_written new = [] /\
    match out with
    | inr results =>
        requests_sent new =
          flat_map (fun u =>
                      [ {| Request.method := HEAD; Request.url := URLRecord.url u;
                           Request.timeout := 10; Request.allow_redirects := true;
                           Request.headers :=
                             session_headers self ++
                             [("X-Purpose", "last-mod-check")] |};
                        {| Request.method := GET; Request.url := URLRecord.url u;
                           Request.timeout := 10; Request.allow_redirects := true;
                           Request.headers := session_headers self |} ])
                   (slice_to urls_data MAX_URLS_TO_FETCH) /\
        sleeps new = replicate (length results) FETCH_DELAY
    | inl e =>
        uncaught_head_error env self (slice_to urls_data MAX_URLS_TO_FETCH) e
    end.
Proof.
  destruct (scrape_pages_outcome env self urls_data t)
    as (out & new & Hrun & Hw & Hout).
  exists out, new. split; [done|]. split; [done|].
  destruct out as [e|results]; [done|].
  destruct Hout as (Hprobed & _ & _ & Hr & Hs & _).
  split; [exact Hr|].
  by rewrite Hs, (Forall2_length _ _ _ Hprobed).
Qed.

(** X9. When [scrape_pages] returns (otherwise a HEAD request that raised
    an exception other than a [RequestException] stopped it), the progress
    lines it printed are the line with the number of records of the capped
    list, then one line per record, numbered from 1 up to that number,
    each with the record's URL. *)
Theorem scrape_pages_progress_lines
        (env : Env) (self : TouchGFXSitemapScraper)
        (urls_data : list URLRecord.t) (t : Trace) :
  let capped := slice_to urls_data MAX_URLS_TO_FETCH in
  exists (out : Exception + list Enriched.t) (new : Trace),
    scrape_pages env self urls_data t = (out, t ++ new) /\
    match out with
    | inr results =>
        progress_lines new =
          ProcessingURLs (length capped) ::
          imap (fun k u => ProcessingURL (S k) (length capped) (URLRecord.url u))
               capped
    | inl e => uncaught_head_error env self capped e
    end.
Proof.
  destruct (scrape_pages_outcome env self urls_data t)
    as (out & new & Hrun & _ & Hout).
  exists out, new. split; [done|].
  destruct out as [e|results]; [done|].
  by destruct Hout as (_ & _ & _ & _ & _ & Hp).
Qed.

(** X10. Whenever [scrape_pages] returns, the two probe columns of every
    record it returns hold strings, never [None]: a probe that found
    nothing leaves the empty string. *)
Theorem scrape_pages_probe_columns_are_strings
        (env : Env) (self : TouchGFXSitemapScraper)
        (urls_data : list URLRecord.t) (t : Trace) :
  exists (out : Exception + list Enriched.t) (new : Trace),
    scrape_pages env self urls_data t = (out, t ++ new) /\
    match out with
    | inr results =>
        Forall (fun e => exists s1 s2 : string,
                    Enriched.http_last_modified e = Some s1 /\
                    Enriched.http_last_modified2 e = Some s2)
               results
    | inl e =>
        uncaught_head_error env self (slice_to urls_data MAX_URLS_TO_FETCH) e
    end.
Proof.
  assert (Hor : forall h : pystr, exists s, py_or h (Some "") = Some s).
  { intros [s|]; unfold py_or; simpl; [|by exists ""].
    destruct (negb (String.eqb s "")); by eexists. }
  destruct (scrape_pages_outcome env self urls_data t)
    as (out & new & Hrun & _ & Hout).
  exists out, new. split; [done|].
  destruct out as [e|results]; [done|].
  destruct Hout as (Hprobed & _).
  eapply Forall2_Forall_r; [exact Hprobed|].
  apply Forall_forall. intros u _ e Hp.
  apply probed_in_derived in Hp as (h1 & h2 & ->). simpl.
  destruct (Hor h1) as [s1 ->]. destruct (Hor h2) as [s2 ->]. by exists s1, s2.
Qed.

(** ** Further properties of [save_to_csv] *)

Lemma string_length_app (a b : string) :
  String.length (a +:+ b) = (String.length a + String.length b)%nat.
Proof. induction a as [|c a IH]; simpl; [done|by rewrite IH]. Qed.

Lemma string_app_inj_r (a b c : string) : a +:+ c = b +:+ c -> a = b.
Proof.
  revert b. induction a as [|x a IH]; intros [|y b] H.
  - done.
  - apply (f_equal String.length) in H.
    rewrite !string_length_app in H. simpl in H. lia.
  - apply (f_equal String.length) in H.
    rewrite !string_length_app in H. simpl in H. lia.
  - change (String x (a +:+ c) = String y (b +:+ c)) in H.
    injection H as -> H. f_equal. by apply IH.
Qed.

Lemma str_of_Z_inj (a b : Z) : str_of_Z a = str_of_Z b -> a = b.
Proof.
  assert (Hnonnil : forall z : Z,
             Z.to_int z <> Decimal.Pos Decimal.Nil /\
             Z.to_int z <> Decimal.Neg Decimal.Nil).
  { intros [|p|p]; simpl; split; try done;
      intros [= H]; by apply (DecimalPos.Unsigned.to_uint_nonnil p). }
  unfold str_of_Z. intros H.
  apply DecimalZ.to_int_inj.
  destruct (Hnonnil a) as [Ha1 Ha2]. destruct (Hnonnil b) as [Hb1 Hb2].
  pose proof (NilZero.isi (Z.to_int a) Ha1 Ha2) as Ia.
  pose proof (NilZero.isi (Z.to_int b) Hb1 Hb2) as Ib.
  rewrite H in Ia. congruence.
Qed.

Lemma default_filename_nonempty (now : Q) : default_filename now <> "".
Proof. done. Qed.

(** X11. Given a file name, when the file opens and the writing completes,
    [save_to_csv] writes that file and returns the same name: the header
    row first, then one row per record in the order of the records, every
    row as wide as the header, each row starting with the record's URL.
    It then prints the name. *)
Theorem save_to_csv_named_file
        (env : Env) (self : TouchGFXSitemapScraper) (data : list Enriched.t)
        (filename : string) (t : Trace) :
  open_for_writing env t filename = None ->
  write_error env t filename = None ->
  exists rows : list (list string),
    save_to_csv env self data (Some filename) t =
      (inr filename,
       t ++ [Wrote filename (fieldnames :: rows);
             Printed (DataSavedTo filename)]) /\
    length rows = length data /\
    Forall (fun row => length row = length fieldnames) rows /\
    map head rows = map (fun r => Some (Enriched.url r)) data.
Proof.
  intros Hopen Hwrite. exists (map csv_row data). split.
  - unfold save_to_csv, write_csv, print, emit, mbind, M_bind, mret, M_ret.
    cbv beta iota. rewrite Hopen, Hwrite. by rewrite <- app_assoc.
  - split; [by rewrite length_map|].
    split; [by apply Forall_map, Forall_true|].
    induction data as [|r data IH]; simpl; [done|by rewrite IH].
Qed.

Lemma save_to_csv_named_file_witness :
  exists rows : list (list string),
    save_to_csv Sample.offline Sample.scraper
                [Sample.enriched_welcome] (Some "out.csv") [] =
      (inr "out.csv",
       [] ++ [Wrote "out.csv" (fieldnames :: rows);
              Printed (DataSavedTo "out.csv")]) /\
    length rows = length [Sample.enriched_welcome] /\
    Forall (fun row => length row = length fieldnames) rows /\
    map head rows =
      map (fun r => Some (Enriched.url r)) [Sample.enriched_welcome].
Proof.
  apply (save_to_csv_named_file
           Sample.offline Sample.scraper [Sample.enriched_welcome] "out.csv" []);
    reflexivity.
Defined.

(** X12. The name [save_to_csv] makes up depends on the whole seconds of
    the clock reading and on nothing else: two readings give the same
    name exactly when they have the same integer part, so two runs within
    one second write to the same file and runs in different seconds do
    not. *)
Theorem default_filename_same_iff_same_second (a b : Q) :
  default_filename a = default_filename b <-> int_of_Q a = int_of_Q b.
Proof.
  split.
  - unfold default_filename. intros H.
    apply (inj (String.app "/tmp/touchgfx-")) in H.
    apply string_app_inj_r in H. by apply str_of_Z_inj.
  - unfold default_filename. by intros ->.
Qed.

(** ** Every way [run] and [main] can end *)

(** X13. When the sitemap is fetched and parsed, at least one entry is kept,
    the failing HEAD requests fail with a [RequestException], and the file
    opens and the writing completes, [run] probes the first
    [MAX_URLS_TO_FETCH] records and writes one file, whose name it returns:
    the header row, then one row per enriched record. *)
Theorem run_writes_enriched_rows
        (env : Env) (self : TouchGFXSitemapScraper) (t : Trace)
        (response : Response.t) (root : ET.Element) :
  send env (t ++ [Printed StartingScraper; Printed FetchingSitemap])
       (sitemap_request self) = inr response ->
  ~ (400 <= Response.status_code response < 600)%Z ->
  fromstring env (Response.text response) = inr root ->
  parse_root self root <> [] ->
  head_failures_caught env self ->
  (forall tr filename, open_for_writing env tr filename = None) ->
  (forall tr filename, write_error env tr filename = None) ->
  exists (results : list Enriched.t) (filename : string) (new : Trace),
    run env self t = (inr filename, t ++ new) /\
    Forall2 derived_from
            (slice_to (parse_root self root) MAX_URLS_TO_FETCH) results /\
    head_requests new =
      map URLRecord.url (slice_to (parse_root self root) MAX_URLS_TO_FETCH) /\
    files_written new = [filename] /\
    Wrote filename (fieldnames :: map csv_row results) ∈ new.
Proof.
  intros Hsend Hstatus Hparse Hsome Hcaught Hopen Hwrite.
  destruct (run_scraped env self t response root Hsend Hstatus Hparse Hsome)
    as ([e|results] & new & Hw & Hout).
  { destruct Hout as ((He & tr & u & _ & Hs) & _).
    apply Hcaught in Hs. congruence. }
  destruct Hout as (Hder & Hh & Hrun).
  rewrite Hopen, Hwrite in Hrun.
  eexists results, _, _. split; [exact Hrun|].
  split; [done|].
  rewrite head_requests_app, files_written_app, Hh, Hw.
  split; [by rewrite app_nil_r|]. split; [done|].
  rewrite !elem_of_app, !elem_of_cons. tauto.
Qed.

Lemma serving_head_failures_caught (html : string) :
  head_failures_caught (Sample.serving html) Sample.scraper.
Proof. intros tr url e H. discriminate H. Defined.

Lemma read_only_head_failures_caught (html : string) :
  head_failures_caught (Sample.read_only html) Sample.scraper.
Proof. intros tr url e H. discriminate H. Defined.

Lemma run_writes_enriched_rows_witness :
  exists (results : list Enriched.t) (filename : string) (new : Trace),
    run (Sample.serving Sample.three_xml) Sample.scraper [] =
      (inr filename, [] ++ new) /\
    Forall2 derived_from
            (slice_to (parse_root Sample.scraper Sample.three_root)
                      MAX_URLS_TO_FETCH) results /\
    head_requests new =
      map URLRecord.url
          (slice_to (parse_root Sample.scraper Sample.three_root)
                    MAX_URLS_TO_FETCH) /\
    files_written new = [filename] /\
    Wrote filename (fieldnames :: map csv_row results) ∈ new.
Proof.
  apply (run_writes_enriched_rows
           (Sample.serving Sample.three_xml) Sample.scraper []
           (Sample.response 200 [] Sample.three_xml) Sample.three_root).
  - reflexivity.
  - intros [H _]. exact (H eq_refl).
  - reflexivity.
  - discriminate.
  - apply serving_head_failures_caught.
  - intros tr filename. reflexivity.
  - intros tr filename. reflexivity.
Defined.

Lemma run_fetch_escapes env self t e :
  send env (t ++ [Printed StartingScraper; Printed FetchingSitemap])
       (sitemap_request self) = inl e ->
  exists new, run env self t = (inl e, t ++ new) /\ files_written new = [].
Proof.
  intros Hsend. destruct (is_RequestException e) eqn:He.
  - eexists. split.
    + erewrite run_fetch_raises; [|by apply fetch_sitemap_failed].
      by rewrite <- app_assoc.
    + done.
  - eexists. split.
    + erewrite run_fetch_raises; [|by apply fetch_sitemap_escaped].
      by rewrite <- app_assoc.
    + done.
Qed.

(** Every way [run] can end, with what it wrote and which pages it probed. *)
Lemma run_outcome env self t :
  exists (out : Exception + string) (new : Trace),
    run env self t = (out, t ++ new) /\
    match out with
    | inr filename =>
        (filename = "" /\ files_written new = [] /\ head_requests new = []) \/
        (filename <> "" /\ files_written new = [filename] /\
         exists rows, Wrote filename rows ∈ new)
    | inl e =>
        files_written new = [] \/
        (exists filename msg,
            e = OSError msg /\ files_written new = [filename] /\
            Truncated filename ∈ new)
    end.
Proof.
  destruct (send env (t ++ [Printed StartingScraper; Printed FetchingSitemap])
                 (sitemap_request self)) as [e|response] eqn:Hsend.
  { destruct (run_fetch_escapes env self t e Hsend) as (new & Hrun & Hw).
    exists (inl e), new. split; [done|by left]. }
  destruct (decide (400 <= Response.status_code response < 600)%Z) as [Hs|Hs].
  { eexists _, _. split.
    - erewrite run_fetch_raises; [|by apply fetch_sitemap_error_status].
      by rewrite <- app_assoc.
    - by left. }
  destruct (fromstring env (Response.text response)) as [msg|root] eqn:Hparse.
  { eexists _, _. split; [by eapply run_parse_raises|by left]. }
  destruct (decide (parse_root self root = [])) as [Hnone|Hsome].
  { eexists _, _. split; [by eapply run_no_records|]. by left. }
  destruct (run_scraped env self t response root Hsend Hs Hparse Hsome)
    as ([e|results] & new & Hw & Hout).
  { destruct Hout as (_ & Hrun). exists (inl e), new. split; [done|by left]. }
  destruct Hout as (_ & _ & ->).
  destruct (open_for_writing env (t ++ new) _) as [msg|].
  { exists (inl (OSError msg)), new. split; [done|by left]. }
  destruct (write_error env (t ++ new) _) as [msg|].
  - eexists (inl (OSError msg)), _. split; [reflexivity|]. right.
    eexists _, msg. split; [done|].
    rewrite files_written_app, Hw. split; [done|].
    rewrite elem_of_app, elem_of_cons. tauto.
  - eexists (inr _), _. split; [reflexivity|]. right.
    split; [apply default_filename_nonempty|].
    rewrite files_written_app, Hw. split; [done|].
    eexists. rewrite elem_of_app, elem_of_cons. right. left. reflexivity.
Qed.


(** X15. [main] never raises.  Whatever the network, the parsers and the
    file system do, it returns normally, and the last two lines it prints
    are the outcome (the success line with the value [run] returned, or
    the error line with the exception [run] raised) and the elapsed time.
    At most one file is written or left behind. *)
Theorem main_always_returns (env : Env) (t : Trace) :
  exists (new : Trace) (outcome : Line) (elapsed : Q),
    main env t =
      (inr tt, t ++ new ++ [Printed outcome; Printed (ElapsedTime elapsed)]) /\
    elapsed = (clock env (t ++ new) - clock env t)%Q /\
    (length (files_written new) <= 1)%nat /\
    ((exists filename,
         run env (new_scraper default_sitemap_url) t = (inr filename, t ++ new) /\
         outcome = ProcessCompleted filename) \/
     (exists e,
         run env (new_scraper default_sitemap_url) t = (inl e, t ++ new) /\
         outcome = ErrorDuringScraping e)).
Proof.
  destruct (run_outcome env (new_scraper default_sitemap_url) t)
    as ([e|filename] & new & Hrun & Hout).
  - exists new, (ErrorDuringScraping e), (clock env (t ++ new) - clock env t)%Q.
    split; [rewrite (main_run_raises _ _ _ _ Hrun); by rewrite <- app_assoc|].
    split; [done|]. split; [|right; by exists e].
    destruct Hout as [-> | (f & msg & _ & -> & _)]; simpl; lia.
  - exists new, (ProcessCompleted filename),
      (clock env (t ++ new) - clock env t)%Q.
    split; [rewrite (main_run_returns _ _ _ _ Hrun); by rewrite <- app_assoc|].
    split; [done|]. split; [|left; by exists filename].
    destruct Hout as [(_ & -> & _) | (_ & -> & _)]; simpl; lia.
Qed.

(** X16. When no entry survives the filter, [main] still prints the line
    for a successful run, with the empty string as the output file, and
    then the elapsed time. *)
Theorem main_without_urls_reports_success
        (env : Env) (t : Trace) (response : Response.t) (root : ET.Element) :
  let self := new_scraper default_sitemap_url in
  send env (t ++ [Printed StartingScraper; Printed FetchingSitemap])
       (sitemap_request self) = inr response ->
  ~ (400 <= Response.status_code response < 600)%Z ->
  fromstring env (Response.text response) = inr root ->
  filter (fun e => kept self e = true) (url_elements root) = [] ->
  exists elapsed : Q,
    main env t =
    (inr tt,
     t ++ [Printed StartingScraper; Printed FetchingSitemap;
           Sent (sitemap_request self);
           Printed ParsingSitemap; Printed (FoundURLs 0);
           Printed NoURLsFound;
           Printed (ProcessCompleted "");
           Printed (ElapsedTime elapsed)]).
Proof.
  intros self Hsend Hstatus Hparse Hnone.
  apply parse_root_nothing_kept in Hnone.
  pose proof (run_no_records env self t response root Hsend Hstatus Hparse Hnone)
    as Hrun.
  eexists. rewrite (main_run_returns _ _ _ _ Hrun).
  rewrite <- app_assoc. simpl app. reflexivity.
Qed.

Lemma main_without_urls_reports_success_witness :
  exists elapsed : Q,
    main (Sample.serving Sample.excluded_xml) [] =
    (inr tt,
     [] ++ [Printed StartingScraper; Printed FetchingSitemap;
            Sent (sitemap_request Sample.scraper);
            Printed ParsingSitemap; Printed (FoundURLs 0);
            Printed NoURLsFound;
            Printed (ProcessCompleted "");
            Printed (ElapsedTime elapsed)]).
Proof.
  apply (main_without_urls_reports_success
           (Sample.serving Sample.excluded_xml) []
           (Sample.response 200 [] Sample.excluded_xml) Sample.excluded_root).
  - reflexivity.
  - intros [H _]. exact (H eq_refl).
  - reflexivity.
  - reflexivity.
Defined.

(** X17. When the failing HEAD requests fail with a [RequestException], the
    pages have been probed and the file cannot be opened, [main] returns
    normally: the [OSError] is reported with the elapsed time, the probes
    have all been made and no file is written. *)
Theorem main_reports_write_failure
        (env : Env) (t : Trace) (response : Response.t) (root : ET.Element)
        (msg : string) :
  let self := new_scraper default_sitemap_url in
  send env (t ++ [Printed StartingScraper; Printed FetchingSitemap])
       (sitemap_request self) = inr response ->
  ~ (400 <= Response.status_code response < 600)%Z ->
  fromstring env (Response.text response) = inr root ->
  parse_root self root <> [] ->
  head_failures_caught env self ->
  (forall tr filename, open_for_writing env tr filename = Some msg) ->
  exists (new : Trace) (elapsed : Q),
    main env t =
      (inr tt,
       t ++ new ++ [Printed (ErrorDuringScraping (OSError msg));
                    Printed (ElapsedTime elapsed)]) /\
    head_requests new =
      map URLRecord.url (slice_to (parse_root self root) MAX_URLS_TO_FETCH) /\
    files_written new = [].
Proof.
  intros self Hsend Hstatus Hparse Hsome Hcaught Hopen.
  destruct (run_scraped env self t response root Hsend Hstatus Hparse Hsome)
    as ([e|results] & new & Hw & Hout).
  { destruct Hout as ((He & tr & u & _ & Hs) & _).
    apply Hcaught in Hs. congruence. }
  destruct Hout as (_ & Hh & Hrun).
  rewrite Hopen in Hrun.
  exists new, (clock env (t ++ new) - clock env t)%Q.
  split; [|done].
  rewrite (main_run_raises _ _ _ _ Hrun). by rewrite <- app_assoc.
Qed.

Lemma main_reports_write_failure_witness :
  exists (new : Trace) (elapsed : Q),
    main (Sample.read_only Sample.three_xml) [] =
      (inr tt,
       [] ++ new ++ [Printed (ErrorDuringScraping (OSError "Permission denied"));
                     Printed (ElapsedTime elapsed)]) /\
    head_requests new =
      map URLRecord.url
          (slice_to (parse_root Sample.scraper Sample.three_root)
                    MAX_URLS_TO_FETCH) /\
    files_written new = [].
Proof.
  apply (main_reports_write_failure
           (Sample.read_only Sample.three_xml) []
           (Sample.response 200 [] Sample.three_xml) Sample.three_root
           "Permission denied").
  - reflexivity.
  - intros [H _]. exact (H eq_refl).
  - reflexivity.
  - discriminate.
  - apply read_only_head_failures_caught.
  - intros tr filename. reflexivity.
Defined.

(** X18. When the failing HEAD requests fail with a [RequestException], the
    pages have been probed, the file opens but the writing fails, the file
    is left behind unfinished and [main] returns normally: the [OSError]
    is reported with the elapsed time right after, all the probes having
    been made before. *)
Theorem main_reports_unfinished_file
        (env : Env) (t : Trace) (response : Response.t) (root : ET.Element)
        (msg : string) :
  let self := new_scraper default_sitemap_url in
  send env (t ++ [Printed StartingScraper; Printed FetchingSitemap])
       (sitemap_request self) = inr response ->
  ~ (400 <= Response.status_code response < 600)%Z ->
  fromstring env (Response.text response) = inr root ->
  parse_root self root <> [] ->
  head_failures_caught env self ->
  (forall tr filename, open_for_writing env tr filename = None) ->
  (forall tr filename, write_error env tr filename = Some msg) ->
  exists (new : Trace) (filename : string) (elapsed : Q),
    main env t =
      (inr tt,
       t ++ new ++ [Truncated filename;
                    Printed (ErrorDuringScraping (OSError msg));
                    Printed (ElapsedTime elapsed)]) /\
    head_requests new =
      map URLRecord.url (slice_to (parse_root self root) MAX_URLS_TO_FETCH) /\
    files_written new = [].
Proof.
  intros self Hsend Hstatus Hparse Hsome Hcaught Hopen Hwrite.
  destruct (run_scraped env self t response root Hsend Hstatus Hparse Hsome)
    as ([e|results] & new & Hw & Hout).
  { destruct Hout as ((He & tr & u & _ & Hs) & _).
    apply Hcaught in Hs. congruence. }
  destruct Hout as (_ & Hh & Hrun).
  rewrite Hopen, Hwrite in Hrun.
  exists new, (default_filename (clock env (t ++ new))),
    (clock env (t ++ new ++ [Truncated (default_filename (clock env (t ++ new)))])
     - clock env t)%Q.
  split; [rewrite (main_run_raises _ _ _ _ Hrun); by rewrite <- !app_assoc|].
  done.
Qed.

Lemma disk_full_head_failures_caught (html : string) :
  head_failures_caught (Sample.disk_full html) Sample.scraper.
Proof. intros tr url e H. discriminate H. Defined.

Lemma main_reports_unfinished_file_witness :
  exists (new : Trace) (filename : string) (elapsed : Q),
    main (Sample.disk_full Sample.three_xml) [] =
      (inr tt,
       [] ++ new ++ [Truncated filename;
                     Printed (ErrorDuringScraping (OSError "No space left on device"));
                     Printed (ElapsedTime elapsed)]) /\
    head_requests new =
      map URLRecord.url
          (slice_to (parse_root Sample.scraper Sample.three_root)
                    MAX_URLS_TO_FETCH) /\
    files_written new = [].
Proof.
  apply (main_reports_unfinished_file
           (Sample.disk_full Sample.three_xml) []
           (Sample.response 200 [] Sample.three_xml) Sample.three_root
           "No space left on device").
  - reflexivity.
  - intros [H _]. exact (H eq_refl).
  - reflexivity.
  - discriminate.
  - apply disk_full_head_failures_caught.
  - intros tr filename. reflexivity.
  - intros tr filename. reflexivity.
Defined.

(** X19. A HEAD request that raises an exception other than a
    [RequestException] stops [scrape_pages] on the spot: when this happens
    for the first record of the capped list, the exception leaves
    [scrape_pages] after the two progress lines and the one request;
    nothing is printed about it, no GET is sent, there is no pause and no
    record is returned. *)
Theorem scrape_pages_stopped_by_other_exception
        (env : Env) (self : TouchGFXSitemapScraper)
        (urls_data : list URLRecord.t) (t : Trace)
        (u : URLRecord.t) (rest : list URLRecord.t) (e : Exception) :
  slice_to urls_data MAX_URLS_TO_FETCH = u :: rest ->
  send env
       (t ++ [Printed (ProcessingURLs (S (length rest)));
              Printed (ProcessingURL 1 (S (length rest)) (URLRecord.url u))])
       (head_request self (URLRecord.url u)) = inl e ->
  is_RequestException e = false ->
  scrape_pages env self urls_data t =
  (inl e,
   t ++ [Printed (ProcessingURLs (S (length rest)));
         Printed (ProcessingURL 1 (S (length rest)) (URLRecord.url u));
         Sent (head_request self (URLRecord.url u))]).
Proof.
  intros Hcapped Hsend He.
  unfold scrape_pages. rewrite Hcapped.
  rewrite bind_run, print_run. cbv beta iota zeta.
  cbn [scrape_loop length].
  rewrite bind_run, print_run. cbv beta iota.
  rewrite <- app_assoc. simpl app.
  rewrite bind_run.
  rewrite (get_last_modified_from_page_escaped _ _ _ _ e Hsend He).
  by rewrite <- app_assoc.
Qed.

Lemma scrape_pages_stopped_by_other_exception_witness :
  scrape_pages (Sample.unparsable_host "") Sample.scraper Sample.twice [] =
  (inl (OtherError "LocationParseError: Failed to parse"),
   [] ++ [Printed (ProcessingURLs 2);
          Printed (ProcessingURL 1 2 (URLRecord.url (Sample.page "01")));
          Sent (head_request Sample.scraper (URLRecord.url (Sample.page "01")))]).
Proof.
  apply (scrape_pages_stopped_by_other_exception
           (Sample.unparsable_host "") Sample.scraper Sample.twice []
           (Sample.page "01") [Sample.page "01"]
           (OtherError "LocationParseError: Failed to parse"));
    reflexivity.
Defined.
